(** * Topological liftings: the base contract and the graph helper

    A shallow embedding of [modules/transforms/liftings/lifting.py]:
    the registry of feature liftings, the constructors of the seven
    lifting classes, [AbstractLifting.forward], and
    [GraphLifting._generate_graph_from_data] together with the part of
    [networkx.Graph] it drives.

    Python exceptions are values of [exn]; a call either returns [Ok v] or
    [Raise e].  Methods that read or write attributes of [self] live in a
    state-and-error monad over the instance. Tensor entries are integers. *)

From Stdlib Require Import ZArith List Lia.
From stdpp Require Import gmap strings list fin_maps.

Set Warnings "-clear-no-such-hyp".

Open Scope string_scope.
Open Scope list_scope.
Open Scope Z_scope.

(** ** Exceptions and results *)

Inductive exn : Type :=
| KeyError
| TypeError
| IndexError
| NotImplementedError.

Inductive result (A : Type) : Type :=
| Ok (a : A)
| Raise (e : exn).
Arguments Ok {A} a.
Arguments Raise {A} e.

Definition result_bind {A B} (r : result A) (k : A -> result B) : result B :=
  match r with
  | Ok a => k a
  | Raise e => Raise e
  end.

(** [[f x for x in l]] where [f] may raise: the first exception aborts
    the comprehension. *)
Fixpoint comprehension {A B} (f : A -> result B) (l : list A) : result (list B) :=
  match l with
  | [] => Ok []
  | a :: l' =>
      result_bind (f a) (fun b =>
      result_bind (comprehension f l') (fun bs => Ok (b :: bs)))
  end.

(** ** Methods: state over the instance, plus exceptions *)

Definition M (S A : Type) : Type := S -> result A * S.

Definition ret {S A} (a : A) : M S A := fun s => (Ok a, s).
Definition raise {S A} (e : exn) : M S A := fun s => (Raise e, s).
Definition bind {S A B} (m : M S A) (k : A -> M S B) : M S B :=
  fun s => match m s with
           | (Ok a, s') => k a s'
           | (Raise e, s') => (Raise e, s')
           end.
Definition lift {S A} (r : result A) : M S A := fun s => (r, s).
Definition get {S} : M S S := fun s => (Ok s, s).
Definition put {S} (s' : S) : M S unit := fun _ => (Ok tt, s').

Declare Scope method_scope.
Delimit Scope method_scope with method.
Notation "v <- m ;; k" := (bind m (fun v => k))
  (at level 100, m at next level, right associativity) : method_scope.
Notation "m ;;; k" := (bind m (fun _ => k))
  (at level 100, right associativity) : method_scope.

(** ** Attribute dictionaries and the networkx graph *)

(** Values stored in node and edge attribute dictionaries: the [dim] tag,
    a one-dimensional tensor (a row of a matrix), or a two-dimensional
    tensor. *)
Inductive attr_value : Type :=
| AInt (z : Z)
| ATensor1 (row : list Z)
| ATensor2 (m : list (list Z)).

Abbreviation attrs := (gmap string attr_value).

(** [dict(features=f, dim=d)] *)
Definition dict_features_dim (f : attr_value) (d : Z) : attrs :=
  <["dim" := AInt d]> (<["features" := f]> ∅).

(** [d.update(dd)]: the keys of [dd] win. *)
Definition dict_update (d dd : attrs) : attrs := dd ∪ d.

Module nx.

(** [networkx.Graph]: [_node] maps a node to its attribute dictionary,
    [_adj] maps a node to its neighbours, each with the dictionary of
    the edge.  In networkx the dictionary of an edge is one object
    reachable from both endpoints; here both entries are written on
    every update, and [adj_symmetric] below shows they never differ. *)
Record Graph : Type := mkGraph {
  _node : gmap Z attrs;
  _adj : gmap Z (gmap Z attrs)
}.

Definition Graph_new : Graph := mkGraph ∅ ∅.

(** [if n not in self._node: self._adj[n] = {}; self._node[n] = {}] *)
Definition ensure_node (n : Z) (G : Graph) : Graph :=
  match _node G !! n with
  | Some _ => G
  | None => mkGraph (<[n := ∅]> (_node G)) (<[n := ∅]> (_adj G))
  end.

(** One iteration of [add_nodes_from] on an entry [(n, ndict)]. *)
Definition add_node_entry (G : Graph) (e : Z * attrs) : Graph :=
  let '(n, ndict) := e in
  let G1 := ensure_node n G in
  mkGraph (<[n := dict_update (default ∅ (_node G1 !! n)) ndict]> (_node G1))
          (_adj G1).

Definition add_nodes_from (G : Graph) (nodes : list (Z * attrs)) : Graph :=
  fold_left add_node_entry nodes G.

(** [self._adj[u].get(v, {})] *)
Definition adj_get (G : Graph) (u v : Z) : option attrs :=
  _adj G !! u ≫= fun nbrs => nbrs !! v.

(** [self._adj[u][v] = datadict] *)
Definition adj_set (u v : Z) (datadict : attrs) (adj : gmap Z (gmap Z attrs))
  : gmap Z (gmap Z attrs) :=
  <[u := <[v := datadict]> (default ∅ (adj !! u))]> adj.

(** One iteration of [add_edges_from].  A 2-tuple [(u, v)] is an entry
    with no dictionary ([dd = {}]), a 3-tuple carries its dictionary. *)
Definition add_edge_entry (G : Graph) (e : Z * Z * option attrs) : Graph :=
  let '(u, v, dd) := e in
  let G2 := ensure_node v (ensure_node u G) in
  let datadict := dict_update (default ∅ (adj_get G2 u v)) (default ∅ dd) in
  mkGraph (_node G2) (adj_set v u datadict (adj_set u v datadict (_adj G2))).

Definition add_edges_from (G : Graph) (ebunch : list (Z * Z * option attrs)) : Graph :=
  fold_left add_edge_entry ebunch G.

(** [n in G] and [G.nodes[n]] *)
Definition has_node (G : Graph) (n : Z) : bool := bool_decide (is_Some (_node G !! n)).
Definition nodes (G : Graph) (n : Z) : option attrs := _node G !! n.

(** [G.has_edge(u, v)] and [G.edges[u, v]] *)
Definition has_edge (G : Graph) (u v : Z) : bool := bool_decide (is_Some (adj_get G u v)).
Definition edges (G : Graph) (u v : Z) : option attrs := adj_get G u v.

(** *** Notions used to state the properties of the graph *)

(** Every node with neighbours is a node, and the two directions of an
    edge hold the same dictionary. *)
Definition wf (G : Graph) : Prop :=
  (forall n, _node G !! n = None -> _adj G !! n = None) /\
  (forall u v, adj_get G u v = adj_get G v u).

Definition adj_lookup (adj : gmap Z (gmap Z attrs)) (u v : Z) : option attrs :=
  adj !! u ≫= fun nbrs => nbrs !! v.

(** The dictionary that [add_edge_entry] stores for the entry. *)
Definition stored (G : Graph) (e : Z * Z * option attrs) : attrs :=
  dict_update (default ∅ (adj_get G e.1.1 e.1.2)) (default ∅ e.2).

Definition same_pair (u v : Z) (e : Z * Z * option attrs) : Prop :=
  (e.1.1 = u /\ e.1.2 = v) \/ (e.1.1 = v /\ e.1.2 = u).

#[global] Instance same_pair_dec u v e : Decision (same_pair u v e).
Proof. unfold same_pair. apply _. Defined.

Definition endpoint (n : Z) (ebunch : list (Z * Z * option attrs)) : Prop :=
  Exists (fun e => n = e.1.1 \/ n = e.1.2) ebunch.

(** The dictionary an entry carries: [{}] for a 2-tuple. *)
Definition payload (e : Z * Z * option attrs) : attrs := default ∅ e.2.

(** Every payload replaces every other payload of the list entirely, as
    is the case when all of them have the same keys. *)
Definition overriding (ebunch : list (Z * Z * option attrs)) : Prop :=
  forall e e', e ∈ ebunch -> e' ∈ ebunch ->
    dict_update (payload e) (payload e') = payload e'.

End nx.

(** ** torch_geometric.utils.undirected

    [is_undirected] and [to_undirected] are library functions.  The graph
    helper below is stated for any implementation of the two; the models
    in this module follow the library (edges sorted by [(row, col)] with a
    stable sort, duplicate edges merged by adding their attributes) and
    serve to run the helper on concrete inputs. *)

Module torch_geometric.

Abbreviation edge := (Z * Z * list Z)%type.

Definition key_le (a b : Z * Z) : bool :=
  (a.1 <? b.1) || ((a.1 =? b.1) && (a.2 <=? b.2)).

Definition by_row (e : edge) : Z * Z := e.1.
Definition by_col (e : edge) : Z * Z := (e.1.2, e.1.1).

Fixpoint insert_sorted (key : edge -> Z * Z) (e : edge) (l : list edge) : list edge :=
  match l with
  | [] => [e]
  | e' :: l' =>
      if key_le (key e) (key e') then e :: l else e' :: insert_sorted key e l'
  end.

(** [sort_edge_index]: a stable sort on [row * num_nodes + col]
    ([sort_by_row=True]) or on [col * num_nodes + row]. *)
Definition sort_edges (key : edge -> Z * Z) (l : list edge) : list edge :=
  fold_right (insert_sorted key) [] l.

Definition zip_edges (edge_index : list Z * list Z) (edge_attr : list (list Z))
  : list edge :=
  zip (zip edge_index.1 edge_index.2) edge_attr.

Definition unzip_edges (l : list edge) : (list Z * list Z) * list (list Z) :=
  ((map (fun e : edge => e.1.1) l, map (fun e : edge => e.1.2) l), map snd l).

Definition rows_eqb (a b : list Z) : bool := bool_decide (a = b).

Definition is_undirected (edge_index : list Z * list Z) (edge_attr : list (list Z))
  : bool :=
  let '(edge_index1, edge_attrs1) :=
    unzip_edges (sort_edges by_row (zip_edges edge_index edge_attr)) in
  let '(edge_index2, edge_attrs2) :=
    unzip_edges (sort_edges by_col (zip_edges edge_index1 edge_attrs1)) in
  rows_eqb edge_index1.1 edge_index2.2
  && rows_eqb edge_index1.2 edge_index2.1
  && bool_decide (edge_attrs1 = edge_attrs2).

(** [coalesce] with [reduce='add'] on a sorted edge list. *)
Fixpoint coalesce_sorted (l : list edge) : list edge :=
  match l with
  | [] => []
  | e :: l' =>
      match coalesce_sorted l' with
      | e' :: rest =>
          if bool_decide (e.1 = e'.1)
          then (e.1, zip_with Z.add e.2 e'.2) :: rest
          else e :: e' :: rest
      | [] => [e]
      end
  end.

Definition to_undirected (edge_index : list Z * list Z) (edge_attr : list (list Z))
  : (list Z * list Z) * list (list Z) :=
  let '(row, col) := edge_index in
  let '(row, col) := (row ++ col, col ++ row) in
  let edge_attr := edge_attr ++ edge_attr in
  unzip_edges (coalesce_sorted (sort_edges by_row (zip_edges (row, col) edge_attr))).

End torch_geometric.

(** ** The input of the graph helper *)

(** The fields of a [torch_geometric.data.Data] that the helper reads:
    the node-feature matrix, the edge index of shape (2, E) and the
    optional edge-attribute matrix ([None] when the field is unset). *)
Record Data : Type := mkData {
  x : list (list Z);
  edge_index : list Z * list Z;
  edge_attr : option (list (list Z))
}.

(** The row of a matrix at an integer index, when there is one. *)
Definition row_at (rows : list (list Z)) (k : Z) : option (list Z) :=
  if decide (0 <= k) then rows !! Z.to_nat k else None.

Definition node_dict (row : list Z) : attrs := dict_features_dim (ATensor1 row) 0.

(** The instance attributes of a [GraphLifting]: the strategy resolved by
    the base constructor ([self.feature_lifting]), [preserve_edge_attr],
    and [contains_edge_attr], which is [None] until the helper has
    assigned it. *)
Record GraphLifting (strategy : Type) : Type := mkGraphLifting {
  graph_feature_lifting : strategy;
  preserve_edge_attr : bool;
  contains_edge_attr : option bool
}.
Arguments mkGraphLifting {strategy} _ _ _.
Arguments graph_feature_lifting {strategy} _.
Arguments preserve_edge_attr {strategy} _.
Arguments contains_edge_attr {strategy} _.

Definition set_contains_edge_attr {strategy} (b : bool) (self : GraphLifting strategy)
  : GraphLifting strategy :=
  mkGraphLifting (graph_feature_lifting self) (preserve_edge_attr self) (Some b).

(** The value bound to the local name [edge_attr] at line 136: a tensor,
    or the pair [(edge_index, edge_attr)] that [to_undirected] returns. *)
Inductive edge_attr_obj : Type :=
| EATensor (t : list (list Z))
| EATuple (p : (list Z * list Z) * list (list Z)).

(** [edge_attr[edge_idx]] *)
Definition getitem (o : edge_attr_obj) (edge_idx : nat) : result attr_value :=
  match o with
  | EATensor t =>
      match t !! edge_idx with
      | Some row => Ok (ATensor1 row)
      | None => Raise IndexError
      end
  | EATuple p =>
      match edge_idx with
      | 0%nat => Ok (ATensor2 [p.1.1; p.1.2])
      | 1%nat => Ok (ATensor2 p.2)
      | _ => Raise IndexError
      end
  end.

(** [enumerate(l)] *)
Definition enumerate {A} (l : list A) : list (nat * A) := imap (fun i a => (i, a)) l.

Section graph_helper.

Context {strategy : Type}.
Variable is_undirected : list Z * list Z -> list (list Z) -> bool.
Variable to_undirected :
  list Z * list Z -> list (list Z) -> (list Z * list Z) * list (list Z).

Definition _data_has_edge_attr (data : Data) : bool :=
  bool_decide (is_Some (edge_attr data)).

(** Line 132. *)
Definition node_entries (data : Data) : list (Z * attrs) :=
  imap (fun n row => (Z.of_nat n, dict_features_dim (ATensor1 row) 0)) (x data).

(** Lines 136-138.  The conditional expression is the second component
    of the tuple on the right-hand side: [edge_index] is always
    [data.edge_index], and [edge_attr] is [data.edge_attr] or the whole
    result of [to_undirected]. *)
Definition symmetrize (data : Data) : (list Z * list Z) * edge_attr_obj :=
  let data_edge_attr := default [] (edge_attr data) in
  (edge_index data,
   if is_undirected (edge_index data) data_edge_attr
   then EATensor data_edge_attr
   else EATuple (to_undirected (edge_index data) data_edge_attr)).

(** Lines 139-142. *)
Definition attributed_edges (data : Data) : result (list (Z * Z * option attrs)) :=
  let '(edge_index, edge_attr) := symmetrize data in
  comprehension
    (fun '(edge_idx, (i, j)) =>
       result_bind (getitem edge_attr edge_idx) (fun f =>
       Ok (i, j, Some (dict_features_dim f 1))))
    (enumerate (zip edge_index.1 edge_index.2)).

(** Lines 146-149. *)
Definition plain_edges (data : Data) : list (Z * Z * option attrs) :=
  map (fun '(i, j) => (i, j, None)) (zip (edge_index data).1 (edge_index data).2).

Definition _generate_graph_from_data (data : Data) : M (GraphLifting strategy) nx.Graph :=
  (let nodes := node_entries data in
   self <- get ;;
   edges <-
     (if preserve_edge_attr self && _data_has_edge_attr data then
        edges <- lift (attributed_edges data) ;;
        put (set_contains_edge_attr true self) ;;;
        ret edges
      else
        put (set_contains_edge_attr false self) ;;;
        ret (plain_edges data)) ;;
   let graph := nx.Graph_new in
   let graph := nx.add_nodes_from graph nodes in
   let graph := nx.add_edges_from graph edges in
   ret graph)%method.

(** What the helper's two branches emit, and the graph built from them. *)
Definition carries_edge_attr (self : GraphLifting strategy) (data : Data) : bool :=
  preserve_edge_attr self && _data_has_edge_attr data.

Definition edge_entries (self : GraphLifting strategy) (data : Data)
  : result (list (Z * Z * option attrs)) :=
  if carries_edge_attr self data then attributed_edges data else Ok (plain_edges data).

Definition build_graph (data : Data) (edges : list (Z * Z * option attrs)) : nx.Graph :=
  nx.add_edges_from (nx.add_nodes_from nx.Graph_new (node_entries data)) edges.

End graph_helper.

(** ** The registry, the constructors and [forward] *)

(** A keyword argument that may be omitted at the call. *)
Definition arg {A} (given : option A) (dflt : A) : A := default dflt given.

Inductive lifting_class : Type :=
| AbstractLifting_cls
| GraphLifting_cls
| PointCloudLifting_cls
| CellComplexLifting_cls
| SimplicialLifting_cls
| HypergraphLifting_cls
| CombinatorialLifting_cls.

(** The name a class looks up when [feature_lifting] is not given. *)
Definition default_name (c : lifting_class) : option string :=
  match c with
  | AbstractLifting_cls => None
  | _ => Some "SumLifting"
  end.

Section liftings.

(** Field values of data records and topology descriptors. *)
Context {value : Type}.

(** A feature lifting is called on the lifted topology and returns the
    enriched one. *)
Definition strategy : Type := gmap string value -> result (gmap string value).

(** The two registered classes are defined in other modules of the
    repository; calling a class yields its instance. *)
Variable SumLifting : unit -> strategy.
Variable IdentityTransform : unit -> strategy.

(** [BaseTransform.__init__] called with the keyword arguments [kwargs] *)
Variable BaseTransform_init : gmap string value -> result unit.

Definition FEATURE_LIFTINGS : gmap (option string) (unit -> strategy) :=
  <[Some "SumLifting" := SumLifting]> (<[None := IdentityTransform]> ∅).

(** The instance attributes of an [AbstractLifting]; the five domain
    classes other than [GraphLifting] add none. *)
Record AbstractLifting : Type := mkAbstractLifting {
  feature_lifting : strategy
}.

Definition AbstractLifting_init (feature_lifting : option (option string))
    (kwargs : gmap string value) : result AbstractLifting :=
  let feature_lifting := arg feature_lifting None in
  result_bind (BaseTransform_init kwargs) (fun _ =>
  match FEATURE_LIFTINGS !! feature_lifting with
  | Some cls => Ok (mkAbstractLifting (cls tt))
  | None => Raise KeyError
  end).

Definition GraphLifting_init (feature_lifting : option (option string))
    (preserve_edge_attr : option bool) (kwargs : gmap string value)
  : result (GraphLifting strategy) :=
  let feature_lifting := arg feature_lifting (Some "SumLifting") in
  let preserve_edge_attr := arg preserve_edge_attr false in
  result_bind (AbstractLifting_init (Some feature_lifting) kwargs)
    (fun '(mkAbstractLifting resolved) =>
       Ok (mkGraphLifting resolved preserve_edge_attr None)).

Definition PointCloudLifting_init (feature_lifting : option (option string))
    (kwargs : gmap string value) : result AbstractLifting :=
  let feature_lifting := arg feature_lifting (Some "SumLifting") in
  AbstractLifting_init (Some feature_lifting) kwargs.

Definition CellComplexLifting_init (feature_lifting : option (option string))
    (kwargs : gmap string value) : result AbstractLifting :=
  let feature_lifting := arg feature_lifting (Some "SumLifting") in
  AbstractLifting_init (Some feature_lifting) kwargs.

Definition SimplicialLifting_init (feature_lifting : option (option string))
    (kwargs : gmap string value) : result AbstractLifting :=
  let feature_lifting := arg feature_lifting (Some "SumLifting") in
  AbstractLifting_init (Some feature_lifting) kwargs.

Definition HypergraphLifting_init (feature_lifting : option (option string))
    (kwargs : gmap string value) : result AbstractLifting :=
  let feature_lifting := arg feature_lifting (Some "SumLifting") in
  AbstractLifting_init (Some feature_lifting) kwargs.

Definition CombinatorialLifting_init (feature_lifting : option (option string))
    (kwargs : gmap string value) : result AbstractLifting :=
  let feature_lifting := arg feature_lifting (Some "SumLifting") in
  AbstractLifting_init (Some feature_lifting) kwargs.

Definition result_map {A B} (f : A -> B) (r : result A) : result B :=
  result_bind r (fun a => Ok (f a)).

(** Running the constructor of a class, on an instance of the class or of
    a subclass that inherits it, and reading the strategy it resolved.
    [preserve_edge_attr_arg] is the parameter of [GraphLifting.__init__];
    the other six constructors have no such parameter, and for them the
    call modelled is the one made without that keyword, whatever
    [preserve_edge_attr_arg] is (given to them, the keyword would travel
    in [kwargs] to the inherited initialiser). *)
Definition construct (c : lifting_class)
    (feature_lifting_arg : option (option string))
    (preserve_edge_attr_arg : option bool) (kwargs : gmap string value)
  : result strategy :=
  match c with
  | AbstractLifting_cls =>
      result_map feature_lifting (AbstractLifting_init feature_lifting_arg kwargs)
  | GraphLifting_cls =>
      result_map graph_feature_lifting
        (GraphLifting_init feature_lifting_arg preserve_edge_attr_arg kwargs)
  | PointCloudLifting_cls =>
      result_map feature_lifting (PointCloudLifting_init feature_lifting_arg kwargs)
  | CellComplexLifting_cls =>
      result_map feature_lifting (CellComplexLifting_init feature_lifting_arg kwargs)
  | SimplicialLifting_cls =>
      result_map feature_lifting (SimplicialLifting_init feature_lifting_arg kwargs)
  | HypergraphLifting_cls =>
      result_map feature_lifting (HypergraphLifting_init feature_lifting_arg kwargs)
  | CombinatorialLifting_cls =>
      result_map feature_lifting (CombinatorialLifting_init feature_lifting_arg kwargs)
  end.

(** [lift_topology] as each of the seven classes defines it. *)
Definition lift_topology {Self} (c : lifting_class) (data : gmap string value)
  : M Self (gmap string value) :=
  match c with
  | AbstractLifting_cls => raise NotImplementedError
  | GraphLifting_cls => raise NotImplementedError
  | PointCloudLifting_cls => raise NotImplementedError
  | CellComplexLifting_cls => raise NotImplementedError
  | SimplicialLifting_cls => raise NotImplementedError
  | HypergraphLifting_cls => raise NotImplementedError
  | CombinatorialLifting_cls => raise NotImplementedError
  end.

(** A data record is the map of its fields; [to_dict] copies the map. *)
Definition to_dict (data : gmap string value) : gmap string value := data.

(** The constructor call of line 64, [Data] applied to the two unpacked
    dictionaries: a call with two keyword unpackings raises [TypeError]
    when a keyword occurs in both. *)
Definition Data_kwargs (initial_data lifted_topology : gmap string value)
  : result (gmap string value) :=
  if decide (dom initial_data ##@{gset string} dom lifted_topology)
  then Ok (initial_data ∪ lifted_topology)
  else Raise TypeError.

Section forward.

Context {Self : Type}.
(** [self.feature_lifting] *)
Variable self_feature_lifting : Self -> strategy.
(** [self.lift_topology], as the class of [self] or an override defines it *)
Variable self_lift_topology : gmap string value -> M Self (gmap string value).

Definition forward (data : gmap string value) : M Self (gmap string value) :=
  (let initial_data := to_dict data in
   lifted_topology <- self_lift_topology data ;;
   self <- get ;;
   lifted_topology <- lift (self_feature_lifting self lifted_topology) ;;
   lifted_data <- lift (Data_kwargs initial_data lifted_topology) ;;
   ret lifted_data)%method.

End forward.

End liftings.

(** [object.__init__], which [BaseTransform] inherits: extra keyword
    arguments are a [TypeError]. *)
Definition object_init {value} (kwargs : gmap string value) : result unit :=
  if decide (dom kwargs =@{gset string} ∅) then Ok tt else Raise TypeError.

(** ** Notions used in the statements, and concrete inputs *)

(** An integer occurs as an endpoint of a column of the edge index. *)
Definition is_endpoint (data : Data) (k : Z) : Prop :=
  Exists (fun p : Z * Z => k = p.1 \/ k = p.2)
         (zip (edge_index data).1 (edge_index data).2).

(** Every node is tagged [dim=0] and every edge [dim=1]. *)
Definition dimension_tagging (g : nx.Graph) : Prop :=
  (forall n d, nx.nodes g n = Some d -> d !! "dim" = Some (AInt 0)) /\
  (forall u v d, nx.edges g u v = Some d -> d !! "dim" = Some (AInt 1)).

(** A strategy that returns its argument, and a [GraphLifting] instance
    as its constructor leaves it. *)
Definition pass_through : @strategy Z := fun topology => Ok topology.

Definition graph_lifting (preserve_edge_attr : bool) : GraphLifting (@strategy Z) :=
  mkGraphLifting pass_through preserve_edge_attr None.

(** The helper with the library models of [is_undirected] and
    [to_undirected]. *)
Definition generate_graph (data : Data)
  : M (GraphLifting (@strategy Z)) nx.Graph :=
  _generate_graph_from_data
    torch_geometric.is_undirected torch_geometric.to_undirected data.

(** Three nodes, edges (0,1) and (1,2), no edge attributes. *)
Definition scenario_A : Data := mkData [[10]; [20]; [30]] ([0; 1], [1; 2]) None.

(** Edges (0,1) and (1,0), both with attribute [5]. *)
Definition scenario_B : Data :=
  mkData [[10]; [20]; [30]] ([0; 1], [1; 0]) (Some [[5]; [5]]).

(** The single edge (0,1) with attribute [9]. *)
Definition scenario_C : Data := mkData [[10]; [20]; [30]] ([0], [1]) (Some [[9]]).

(** One row of features, and an edge to a node that has no row. *)
Definition dangling_edge : Data := mkData [[10]] ([0], [1]) None.

(** A symmetric edge set in which each direction occurs twice. *)
Definition doubled_edges : Data :=
  mkData [[10]; [20]] ([0; 0; 1; 1], [1; 1; 0; 0]) (Some [[5]; [7]; [5]; [7]]).

(** Three edges, not symmetric. *)
Definition three_edges : Data :=
  mkData [[10]; [20]; [30]] ([0; 1; 2], [1; 2; 0]) (Some [[1]; [2]; [3]]).

(** A lifting whose [lift_topology] returns a field named like one of the
    input, and inputs for it. *)
Definition relabel_x (data : gmap string Z) : M unit (gmap string Z) :=
  ret (<["x" := 2]> ∅).

Definition add_x_1 (data : gmap string Z) : M unit (gmap string Z) :=
  ret (<["x_1" := 2]> ∅).

Definition record_x : gmap string Z := <["x" := 1]> ∅.

Definition record_xy : gmap string Z := <["x" := 1]> (<["y" := 3]> ∅).

(** Stand-ins for the two registered classes, to run the constructors:
    one strategy adds a feature field, the other returns its argument. *)
Definition adds_x_1 : unit -> @strategy Z :=
  fun _ topology => Ok (<["x_1" := 0]> topology).

Definition returns_argument : unit -> @strategy Z := fun _ => pass_through.

Definition new_lifting (c : lifting_class) (feature_lifting : option (option string))
  : result (@strategy Z) :=
  construct adds_x_1 returns_argument object_init c feature_lifting None ∅.

(** ** Further notions and inputs *)

(** A column of the edge index, with its position, joins [u] and [v] in
    one direction or the other. *)
Definition joins (u v : Z) (c : nat * (Z * Z)) : Prop :=
  (c.2.1 = u /\ c.2.2 = v) \/ (c.2.1 = v /\ c.2.2 = u).

#[global] Instance joins_dec u v c : Decision (joins u v c).
Proof. unfold joins. apply _. Defined.

(** The position of the last column of the edge index that joins [u]
    and [v]. *)
Definition last_column (data : Data) (u v : Z) : option nat :=
  fst <$> last (filter (joins u v)
                  (enumerate (zip (edge_index data).1 (edge_index data).2))).

(** [(u, v)] is a column of the edge index. *)
Definition is_column (data : Data) (u v : Z) : Prop :=
  (u, v) ∈ zip (edge_index data).1 (edge_index data).2.

#[global] Instance is_column_dec data u v : Decision (is_column data u v).
Proof. unfold is_column. apply _. Defined.

(** The same nodes and edge index with other edge attributes. *)
Definition with_edge_attr (edge_attr : option (list (list Z))) (data : Data) : Data :=
  mkData (x data) (edge_index data) edge_attr.

(** A lifting whose [lift_topology] returns an empty descriptor. *)
Definition adds_nothing (data : gmap string Z) : M unit (gmap string Z) :=
  ret ∅.



(** Two rows of features and no edge. *)
Definition isolated_nodes : Data := mkData [[10]; [20]] ([], []) (Some []).

(** The edges of [scenario_A] in another order, one of them twice and
    one reversed. *)
Definition scenario_A_shuffled : Data :=
  mkData [[10]; [20]; [30]] ([2; 0; 2], [1; 1; 1]) None.

(** * Properties of the graph object *)

Module nx_facts.
Import nx.

Lemma wf_Graph_new : wf Graph_new.
Proof. split; intros; reflexivity. Qed.

Lemma node_ensure_node n G m :
  _node (ensure_node n G) !! m =
  match _node G !! m with
  | Some d => Some d
  | None => if decide (m = n) then Some ∅ else None
  end.
Proof.
  unfold ensure_node. destruct (_node G !! n) eqn:En; simpl.
  - destruct (_node G !! m) eqn:Em; [done|].
    destruct (decide (m = n)); [congruence | done].
  - destruct (decide (m = n)) as [->|Hne].
    + by rewrite lookup_insert_eq, En.
    + rewrite lookup_insert_ne by done. by destruct (_node G !! m).
Qed.

Lemma adj_get_ensure_node n G u v :
  wf G -> adj_get (ensure_node n G) u v = adj_get G u v.
Proof.
  intros [Hdom _]. unfold ensure_node.
  destruct (_node G !! n) eqn:En; [done|].
  unfold adj_get; simpl.
  destruct (decide (u = n)) as [->|Hne].
  - by rewrite lookup_insert_eq, (Hdom _ En).
  - by rewrite lookup_insert_ne.
Qed.

Lemma wf_ensure_node n G : wf G -> wf (ensure_node n G).
Proof.
  intros HG. split.
  - intros m Hm. rewrite node_ensure_node in Hm.
    destruct (_node G !! m) eqn:Em; [done|].
    case_decide; [done|].
    unfold ensure_node. destruct (_node G !! n); simpl.
    + by apply HG.
    + rewrite lookup_insert_ne by done. by apply HG.
  - intros u v. rewrite !adj_get_ensure_node by done. apply HG.
Qed.

Lemma adj_lookup_adj_set u v d adj a b :
  adj_lookup (adj_set u v d adj) a b =
  if decide (a = u /\ b = v) then Some d else adj_lookup adj a b.
Proof.
  unfold adj_lookup, adj_set.
  destruct (decide (a = u)) as [->|Ha].
  - rewrite lookup_insert_eq; simpl.
    destruct (decide (b = v)) as [->|Hb].
    + rewrite lookup_insert_eq. by rewrite decide_True.
    + rewrite lookup_insert_ne by done.
      rewrite decide_False by naive_solver.
      by destruct (adj !! u).
  - rewrite lookup_insert_ne by done. by rewrite decide_False by naive_solver.
Qed.

Lemma adj_get_add_edge_entry G e a b :
  wf G ->
  adj_get (add_edge_entry G e) a b =
  if decide (same_pair a b e) then Some (stored G e) else adj_get G a b.
Proof.
  intros HG. destruct e as [[u v] dd].
  assert (Hget : forall c d,
    adj_get (ensure_node v (ensure_node u G)) c d = adj_get G c d).
  { intros c d. rewrite adj_get_ensure_node by by apply wf_ensure_node.
    by apply adj_get_ensure_node. }
  unfold add_edge_entry, stored, same_pair; simpl.
  rewrite Hget.
  set (G2 := ensure_node v (ensure_node u G)) in *.
  set (datadict := dict_update (default ∅ (adj_get G u v)) (default ∅ dd)).
  change (adj_lookup (adj_set v u datadict (adj_set u v datadict (_adj G2))) a b =
          if decide ((u = a /\ v = b) \/ (u = b /\ v = a))
          then Some datadict else adj_get G a b).
  rewrite !adj_lookup_adj_set.
  change (adj_lookup (_adj G2) a b) with (adj_get G2 a b). rewrite Hget.
  destruct (decide (a = v /\ b = u)), (decide (a = u /\ b = v)),
    (decide ((u = a /\ v = b) \/ (u = b /\ v = a))); try done; naive_solver.
Qed.

Lemma node_add_edge_entry G e n :
  _node (add_edge_entry G e) !! n =
  match _node G !! n with
  | Some d => Some d
  | None => if decide (n = e.1.1 \/ n = e.1.2) then Some ∅ else None
  end.
Proof.
  destruct e as [[u v] dd]. unfold add_edge_entry; simpl.
  rewrite !node_ensure_node.
  destruct (_node G !! n); [done|].
  repeat case_decide; try done; naive_solver.
Qed.

Lemma wf_add_edge_entry G e : wf G -> wf (add_edge_entry G e).
Proof.
  intros HG. split.
  - intros n Hn. rewrite node_add_edge_entry in Hn.
    destruct (_node G !! n) eqn:En; [done|].
    case_decide as Hne; [done|].
    destruct e as [[u v] dd]; simpl in *.
    assert (HG2 : wf (ensure_node v (ensure_node u G)))
      by by do 2 apply wf_ensure_node.
    unfold add_edge_entry, adj_set; simpl.
    rewrite !lookup_insert_ne by naive_solver.
    apply HG2. rewrite !node_ensure_node, En.
    repeat case_decide; naive_solver.
  - intros u v. rewrite !adj_get_add_edge_entry by done.
    destruct HG as [_ Hsym]. rewrite (Hsym u v).
    unfold same_pair. repeat case_decide; try done; naive_solver.
Qed.

Lemma wf_add_edges_from ebunch : forall G, wf G -> wf (add_edges_from G ebunch).
Proof.
  unfold add_edges_from. induction ebunch as [|e l IH]; intros G HG; simpl; [done|].
  by apply IH, wf_add_edge_entry.
Qed.

(** *** Nodes added by [add_nodes_from] *)

#[local] Arguments add_node_entry : simpl never.
#[local] Arguments add_edge_entry : simpl never.

Lemma node_add_node_entry G n d m :
  _node (add_node_entry G (n, d)) !! m =
  if decide (m = n) then Some (dict_update (default ∅ (_node G !! n)) d)
  else _node G !! m.
Proof.
  unfold add_node_entry; cbn [_node].
  destruct (decide (m = n)) as [->|Hne].
  - rewrite lookup_insert_eq, node_ensure_node.
    destruct (_node G !! n); [done|]. by rewrite decide_True.
  - rewrite lookup_insert_ne, node_ensure_node by done.
    destruct (_node G !! m); [done|]. by rewrite decide_False.
Qed.

Lemma adj_get_add_node_entry G e u v :
  wf G -> adj_get (add_node_entry G e) u v = adj_get G u v.
Proof.
  intros HG. destruct e as [n d].
  change (adj_get (ensure_node n G) u v = adj_get G u v).
  by apply adj_get_ensure_node.
Qed.

Lemma wf_add_node_entry G e : wf G -> wf (add_node_entry G e).
Proof.
  intros HG. destruct e as [n d]. split.
  - intros m Hm. rewrite node_add_node_entry in Hm.
    destruct (decide (m = n)); [done|].
    change (_adj (ensure_node n G) !! m = None).
    apply (wf_ensure_node n G HG). rewrite node_ensure_node, Hm.
    by rewrite decide_False.
  - intros u v. rewrite !adj_get_add_node_entry by done. apply HG.
Qed.

Lemma row_at_snoc rows row k :
  row_at (rows ++ [row]) k =
  if decide (k = Z.of_nat (length rows)) then Some row else row_at rows k.
Proof.
  unfold row_at. destruct (decide (0 <= k)) as [Hk|Hk].
  - destruct (decide (k = Z.of_nat (length rows))) as [->|Hne].
    + rewrite Nat2Z.id. by rewrite list_lookup_middle.
    + destruct (decide (Z.to_nat k < length rows)%nat).
      * by rewrite lookup_app_l.
      * rewrite !lookup_ge_None_2; [done|lia|].
        rewrite length_app; simpl. lia.
  - rewrite decide_False by lia. done.
Qed.

Lemma row_at_length rows : row_at rows (Z.of_nat (length rows)) = None.
Proof.
  unfold row_at. rewrite decide_True by lia.
  apply lookup_ge_None_2. lia.
Qed.

Lemma add_nodes_from_rows (rows : list (list Z)) :
  let G := add_nodes_from Graph_new
             (imap (fun n row => (Z.of_nat n, node_dict row)) rows) in
  wf G /\
  (forall k, _node G !! k = node_dict <$> row_at rows k) /\
  (forall u v, adj_get G u v = None).
Proof.
  induction rows as [|row rows IH] using rev_ind; simpl.
  - split; [apply wf_Graph_new|]. split; intros; [|done].
    unfold row_at. case_decide; by rewrite ?lookup_nil.
  - destruct IH as (Hwf & Hnode & Hadj).
    unfold add_nodes_from in *. rewrite imap_app, fold_left_app.
    cbn [imap fold_left compose]. rewrite Nat.add_0_r.
    set (G := fold_left add_node_entry
                (imap (fun n row => (Z.of_nat n, node_dict row)) rows) Graph_new) in *.

    split; [by apply wf_add_node_entry|]. split.
    + intros k. rewrite node_add_node_entry, row_at_snoc.
      destruct (decide (k = Z.of_nat (length rows))) as [->|]; [|apply Hnode].
      rewrite Hnode, row_at_length; simpl.
      unfold dict_update. by rewrite (right_id ∅ (∪)).
    + intros u v. rewrite adj_get_add_node_entry by done. apply Hadj.
Qed.

(** *** Nodes and edges added by [add_edges_from] *)

Lemma node_add_edges_from ebunch : forall G n,
  _node (add_edges_from G ebunch) !! n =
  match _node G !! n with
  | Some d => Some d
  | None => if decide (endpoint n ebunch) then Some ∅ else None
  end.
Proof.
  unfold add_edges_from, endpoint.
  induction ebunch as [|e l IH]; intros G n; cbn [fold_left].
  - destruct (_node G !! n); [done|].
    rewrite decide_False; [done|]. by intros ?%Exists_nil.
  - rewrite IH, node_add_edge_entry.
    destruct (_node G !! n); [done|].
    destruct (decide (n = e.1.1 \/ n = e.1.2)) as [He|He].
    + rewrite decide_True; [done|]. by apply Exists_cons_hd.
    + destruct (decide (Exists (fun e0 => n = e0.1.1 \/ n = e0.1.2) l)) as [Hl|Hl].
      * rewrite decide_True; [done|]. by apply Exists_cons_tl.
      * rewrite decide_False; [done|]. rewrite Exists_cons. naive_solver.
Qed.

Lemma overriding_app_l l1 l2 : overriding (l1 ++ l2) -> overriding l1.
Proof. intros H e e' He He'. apply H; apply elem_of_app; by left. Qed.

(** The dictionary of the edge between [u] and [v] is the payload of the
    last entry of the list that joins the two, in either direction. *)
Lemma adj_get_add_edges_from ebunch G u v :
  wf G -> (forall a b, adj_get G a b = None) -> overriding ebunch ->
  adj_get (add_edges_from G ebunch) u v =
  payload <$> last (filter (same_pair u v) ebunch).
Proof.
  intros HG Hempty. revert u v.
  induction ebunch as [|e l IH] using rev_ind; intros u v Hov.
  - simpl. apply Hempty.
  - unfold add_edges_from in *. rewrite fold_left_app; simpl.
    assert (Hl : overriding l) by by eapply overriding_app_l.
    assert (Hwf : wf (fold_left add_edge_entry l G)) by by apply wf_add_edges_from.
    rewrite adj_get_add_edge_entry by done. rewrite filter_app.
    destruct (decide (same_pair u v e)) as [He|He].
    + rewrite filter_cons_True, filter_nil, last_snoc by done; simpl.
      f_equal. unfold stored. rewrite IH by done.
      destruct (last (filter (same_pair e.1.1 e.1.2) l)) as [e0|] eqn:E0; simpl.
      * apply Hov; [|apply elem_of_app; right; by apply list_elem_of_singleton].
        apply elem_of_app; left.
        apply last_Some_elem_of in E0. by apply list_elem_of_filter in E0 as [_ ?].
      * unfold dict_update. by rewrite (right_id ∅ (∪)).
    + rewrite filter_cons_False, filter_nil, app_nil_r by done. by apply IH.
Qed.

End nx_facts.

(** * Properties of the graph helper *)

Lemma comprehension_Ok {A B} (f : A -> result B) l bs :
  comprehension f l = Ok bs -> Forall2 (fun a b => f a = Ok b) l bs.
Proof.
  revert bs. induction l as [|a l IH]; intros bs; simpl.
  - intros [= <-]. constructor.
  - destruct (f a) as [b|] eqn:Eb; simpl; [|done].
    destruct (comprehension f l) as [bs'|]; simpl; [|done].
    intros [= <-]. constructor; [done|]. by apply IH.
Qed.

Lemma comprehension_Raise {A B} (f : A -> result B) l a e :
  a ∈ l -> (forall a', f a' = Raise e \/ exists b, f a' = Ok b) -> f a = Raise e ->
  comprehension f l = Raise e.
Proof.
  intros Ha Hf Hr. induction l as [|a' l IH]; [by apply elem_of_nil in Ha|].
  simpl. apply elem_of_cons in Ha as [<-|Ha].
  - by rewrite Hr.
  - destruct (Hf a') as [->|[b ->]]; [done|]. simpl. by rewrite IH.
Qed.

Lemma snd_enumerate {A} (l : list A) : (enumerate l).*2 = l.
Proof.
  apply list_eq; intros i. unfold enumerate.
  rewrite list_lookup_fmap, list_lookup_imap. by destruct (l !! i).
Qed.

Lemma dict_update_features_dim d f d' f' :
  dict_update (dict_features_dim f d) (dict_features_dim f' d') = dict_features_dim f' d'.
Proof.
  unfold dict_update, dict_features_dim. apply map_eq; intros k.
  rewrite lookup_union.
  destruct (decide ("dim" = k)) as [<-|]; [by rewrite !lookup_insert_eq|].
  rewrite !(lookup_insert_ne _ "dim") by done.
  destruct (decide ("features" = k)) as [<-|]; [by rewrite !lookup_insert_eq|].
  by rewrite !lookup_insert_ne, lookup_empty by done.
Qed.

Lemma dim_features_dim f d : dict_features_dim f d !! "dim" = Some (AInt d).
Proof. unfold dict_features_dim. by rewrite lookup_insert_eq. Qed.

Section graph_helper_facts.

Import nx nx_facts.

Context {strategy : Type}.
Variable is_undirected : list Z * list Z -> list (list Z) -> bool.
Variable to_undirected :
  list Z * list Z -> list (list Z) -> (list Z * list Z) * list (list Z).

#[local] Abbreviation helper := (_generate_graph_from_data is_undirected to_undirected).
#[local] Abbreviation entries := (edge_entries is_undirected to_undirected).
#[local] Abbreviation pairs data := (zip (edge_index data).1 (edge_index data).2).

(** The helper is its list of edge entries fed to the graph; the flag is
    assigned only once the list has been built. *)
Lemma helper_run data (self : GraphLifting strategy) :
  helper data self =
  match entries self data with
  | Ok es => (Ok (build_graph data es),
              set_contains_edge_attr (carries_edge_attr self data) self)
  | Raise e => (Raise e, self)
  end.
Proof.
  unfold _generate_graph_from_data, edge_entries, carries_edge_attr, bind, get;
    simpl.
  destruct (preserve_edge_attr self && _data_has_edge_attr data); simpl; [|done].
  unfold lift. by destruct (attributed_edges _ _ data).
Qed.

Lemma plain_edges_payload data : Forall (fun e => e.2 = None) (plain_edges data).
Proof.
  unfold plain_edges. apply Forall_forall. intros e He.
  apply list_elem_of_fmap in He as ([i j] & -> & _). done.
Qed.

Lemma plain_edges_pairs data : (plain_edges data).*1 = pairs data.
Proof.
  unfold plain_edges. apply list_eq; intros i.
  rewrite !list_lookup_fmap. by destruct (pairs data !! i) as [[]|].
Qed.

Lemma attributed_edges_payload data es :
  attributed_edges is_undirected to_undirected data = Ok es ->
  Forall (fun e => exists f, e.2 = Some (dict_features_dim f 1)) es.
Proof.
  unfold attributed_edges. destruct (symmetrize _ _ data) as [ei ea].
  intros H%comprehension_Ok. eapply Forall2_Forall_r; [exact H|].
  apply Forall_forall. intros [idx [i j]] _ e.
  destruct (getitem ea idx) as [f|]; simpl; [|done].
  intros [= <-]. by exists f.
Qed.

Lemma attributed_edges_pairs data es :
  attributed_edges is_undirected to_undirected data = Ok es ->
  es.*1 = pairs data.
Proof.
  unfold attributed_edges, symmetrize.
  intros H%comprehension_Ok. simpl in H.
  rewrite <- (snd_enumerate (pairs data)).
  apply list_eq; intros k. rewrite !list_lookup_fmap.
  destruct (enumerate (pairs data) !! k) as [[idx [i j]]|] eqn:Ek; simpl.
  - destruct (Forall2_lookup_l _ _ _ _ _ H Ek) as (e & -> & He). simpl.
    destruct (getitem _ idx); simpl in He; [|done]. by injection He as <-.
  - apply Forall2_length in H.
    apply lookup_ge_None in Ek. rewrite H in Ek.
    by rewrite (lookup_ge_None_2 _ _ Ek).
Qed.

Lemma entries_pairs data (self : GraphLifting strategy) es :
  entries self data = Ok es -> es.*1 = pairs data.
Proof.
  unfold edge_entries. destruct (carries_edge_attr self data).
  - apply attributed_edges_pairs.
  - intros [= <-]. apply plain_edges_pairs.
Qed.

Lemma entries_overriding data (self : GraphLifting strategy) es :
  entries self data = Ok es -> overriding es.
Proof.
  unfold edge_entries. destruct (carries_edge_attr self data).
  - intros H%attributed_edges_payload e e' He He'.
    rewrite Forall_forall in H.
    destruct (H _ He) as [f Hf], (H _ He') as [f' Hf'].
    unfold payload. rewrite Hf, Hf'. simpl. apply dict_update_features_dim.
  - intros [= <-] e e' He He'.
    pose proof (plain_edges_payload data) as H. rewrite Forall_forall in H.
    unfold payload. rewrite (H _ He), (H _ He'). simpl.
    unfold dict_update. by rewrite (left_id ∅ (∪)).
Qed.

Lemma endpoint_entries data (self : GraphLifting strategy) es k :
  entries self data = Ok es -> endpoint k es <-> is_endpoint data k.
Proof.
  intros H%entries_pairs. unfold endpoint, is_endpoint.
  rewrite <- H. by rewrite Exists_fmap.
Qed.

(** The graph the helper returns: its nodes and the dictionary of each
    of its edges. *)
Lemma helper_graph data (self : GraphLifting strategy) es :
  entries self data = Ok es ->
  let g := build_graph data es in
  helper data self =
    (Ok g, set_contains_edge_attr (carries_edge_attr self data) self) /\
  wf g /\
  (forall n, nodes g n =
     match row_at (x data) n with
     | Some row => Some (node_dict row)
     | None => if decide (endpoint n es) then Some ∅ else None
     end) /\
  (forall u v, edges g u v = payload <$> last (filter (same_pair u v) es)).
Proof.
  intros Hes g. rewrite helper_run, Hes.
  destruct (add_nodes_from_rows (x data)) as (Hwf & Hnode & Hadj).
  split; [done|]. split; [by apply wf_add_edges_from|]. split.
  - intros n. unfold nodes, g, build_graph. rewrite node_add_edges_from.
    unfold node_entries. fold node_dict. rewrite Hnode.
    by destruct (row_at (x data) n).
  - intros u v. unfold edges, g, build_graph.
    apply adj_get_add_edges_from; [done|done|].
    by eapply entries_overriding.
Qed.

Lemma helper_Ok_inv data (self self' : GraphLifting strategy) g :
  helper data self = (Ok g, self') ->
  exists es, entries self data = Ok es /\ g = build_graph data es /\
             self' = set_contains_edge_attr (carries_edge_attr self data) self.
Proof.
  rewrite helper_run. destruct (entries self data) as [es|]; [|done].
  intros [= <- <-]. by exists es.
Qed.

(** Without attribute preservation the helper always returns a graph. *)
Lemma helper_plain_returns data (self : GraphLifting strategy) :
  carries_edge_attr self data = false ->
  helper data self =
    (Ok (build_graph data (plain_edges data)), set_contains_edge_attr false self).
Proof.
  intros H. rewrite helper_run. unfold edge_entries. by rewrite H.
Qed.

Lemma is_endpoint_intro data k :
  length (edge_index data).1 = length (edge_index data).2 ->
  k ∈ (edge_index data).1 \/ k ∈ (edge_index data).2 ->
  is_endpoint data k.
Proof.
  intros Hlen Hk. unfold is_endpoint. apply Exists_exists.
  destruct Hk as [Hk|Hk]; apply list_elem_of_lookup_1 in Hk as [i Hi].
  - destruct (lookup_lt_is_Some_2 (edge_index data).2 i) as [j Hj].
    { rewrite <- Hlen. by eapply lookup_lt_Some. }
    exists (k, j). split; [|by left].
    eapply list_elem_of_lookup_2, lookup_zip_with_Some. eauto.
  - destruct (lookup_lt_is_Some_2 (edge_index data).1 i) as [j Hj].
    { rewrite Hlen. by eapply lookup_lt_Some. }
    exists (j, k). split; [|by right].
    eapply list_elem_of_lookup_2, lookup_zip_with_Some. eauto.
Qed.

Lemma row_at_None rows k :
  ~ (0 <= k < Z.of_nat (length rows)) -> row_at rows k = None.
Proof.
  intros Hk. unfold row_at. case_decide; [|done].
  apply lookup_ge_None_2. lia.
Qed.

(** X6: with attribute preservation on and three or more columns that
    [is_undirected] rejects, indexing the pair returned by
    [to_undirected] raises [IndexError]; no graph is built and the
    instance is left as it was. *)
Lemma asymmetric_three_edges_raise data (self : GraphLifting strategy) ea :
  preserve_edge_attr self = true ->
  edge_attr data = Some ea ->
  is_undirected (edge_index data) ea = false ->
  (3 <= length (pairs data))%nat ->
  helper data self = (Raise IndexError, self).
Proof.
  intros Hp Hea Hund Hlen. rewrite helper_run.
  unfold edge_entries, carries_edge_attr, _data_has_edge_attr.
  rewrite Hp, Hea; simpl.
  unfold attributed_edges, symmetrize. rewrite Hea; simpl. rewrite Hund.
  destruct (lookup_lt_is_Some_2 (pairs data) 2) as [[i j] Hij]; [lia|].
  rewrite (comprehension_Raise _ _ (2%nat, (i, j)) IndexError); [done| | |done].
  - eapply list_elem_of_lookup_2. unfold enumerate.
    rewrite list_lookup_imap, Hij. done.
  - intros [idx [i' j']]. destruct idx as [|[|idx]]; simpl; eauto.
Qed.

(** C10: when the helper returns a graph and an endpoint [k] of the edge
    index is not a row index of the node-feature matrix, the graph has
    node [k] with an empty attribute dictionary, so neither [features]
    nor [dim]; the nodes that are row indices carry
    [{features: row, dim: 0}], and every other node carries nothing. *)
Theorem nodes_outside_feature_matrix data (self self' : GraphLifting strategy) g k :
  _generate_graph_from_data is_undirected to_undirected data self =
    (Ok g, self') ->
  length (edge_index data).1 = length (edge_index data).2 ->
  k ∈ (edge_index data).1 \/ k ∈ (edge_index data).2 ->
  ~ (0 <= k < Z.of_nat (length (x data))) ->
  has_node g k = true /\
  nodes g k = Some ∅ /\
  (forall n row, row_at (x data) n = Some row ->
     nodes g n = Some (dict_features_dim (ATensor1 row) 0)) /\
  (forall n d, nodes g n = Some d -> row_at (x data) n = None -> d = ∅).
Proof.
  intros (es & Hes & -> & _)%helper_Ok_inv Hlen Hk Hrow.
  destruct (helper_graph data self es Hes) as (_ & _ & Hnodes & _).
  assert (Hk' : nodes (build_graph data es) k = Some ∅).
  { rewrite Hnodes, row_at_None by done.
    rewrite decide_True; [done|].
    eapply endpoint_entries; [done|]. by apply is_endpoint_intro. }
  split; [|split; [done|split]].
  - unfold has_node. apply bool_decide_eq_true. by eexists.
  - intros n row Hn. by rewrite Hnodes, Hn.
  - intros n d. rewrite Hnodes. intros Hd Hn. rewrite Hn in Hd.
    case_decide; by inversion Hd.
Qed.

(** C6, amended: in a graph the helper returns, every node that is a row
    index of the node-feature matrix carries [dim=0]; if attribute
    preservation is on and the data has edge attributes, every edge
    carries [dim=1], and otherwise no edge carries a [dim] tag. *)
Theorem dimension_tags data (self self' : GraphLifting strategy) g :
  _generate_graph_from_data is_undirected to_undirected data self =
    (Ok g, self') ->
  (forall n row, row_at (x data) n = Some row ->
     exists d, nodes g n = Some d /\ d !! "dim" = Some (AInt 0)) /\
  (forall u v d, edges g u v = Some d ->
     d !! "dim" = if carries_edge_attr self data then Some (AInt 1) else None).
Proof.
  intros (es & Hes & -> & _)%helper_Ok_inv.
  destruct (helper_graph data self es Hes) as (_ & _ & Hnodes & Hedges).
  split.
  - intros n row Hn. eexists. rewrite Hnodes, Hn. split; [done|].
    apply dim_features_dim.
  - intros u v d. rewrite Hedges.
    destruct (last (filter (same_pair u v) es)) as [e|] eqn:He; [|done].
    intros [= <-]. apply last_Some_elem_of, list_elem_of_filter in He as [_ He].
    unfold edge_entries in Hes. unfold payload.
    destruct (carries_edge_attr self data).
    + apply attributed_edges_payload in Hes. rewrite Forall_forall in Hes.
      destruct (Hes _ He) as [f ->]. apply dim_features_dim.
    + injection Hes as <-.
      pose proof (plain_edges_payload data) as H. rewrite Forall_forall in H.
      by rewrite (H _ He).
Qed.

(** The instance across a call of the helper: the result does not depend
    on the attributes other than [preserve_edge_attr]; the strategy and
    [preserve_edge_attr] are kept; [contains_edge_attr] is assigned
    exactly when a graph is returned. *)
Lemma helper_state data (self : GraphLifting strategy) :
  (forall (resolved : strategy) flag,
     (helper data (mkGraphLifting resolved (preserve_edge_attr self) flag)).1 =
     (helper data self).1) /\
  graph_feature_lifting (helper data self).2 = graph_feature_lifting self /\
  preserve_edge_attr (helper data self).2 = preserve_edge_attr self /\
  (helper data self).2 =
    match (helper data self).1 with
    | Ok _ => set_contains_edge_attr (carries_edge_attr self data) self
    | Raise _ => self
    end.
Proof.
  split; [|rewrite helper_run; by destruct (entries self data)].
  intros resolved flag. rewrite !helper_run.
  unfold edge_entries, carries_edge_attr; simpl.
  by destruct (if preserve_edge_attr self && _data_has_edge_attr data
               then attributed_edges is_undirected to_undirected data
               else Ok (plain_edges data)).
Qed.

End graph_helper_facts.

(** ** The helper on concrete inputs *)

Ltac run_helper := unfold generate_graph; rewrite helper_run; reflexivity.

(** C1: on the single edge (0,1) with attribute [9] and attribute
    preservation on, the helper returns a graph whose edge between 1 and
    0 carries as [features] the edge index computed by [to_undirected],
    not the attribute [9]. *)
Theorem scenario_C_reverse_edge :
  exists g self',
    generate_graph scenario_C (graph_lifting true) = (Ok g, self') /\
    nx.edges g 1 0 = Some (dict_features_dim (ATensor2 [[0; 1]; [1; 0]]) 1) /\
    nx.edges g 1 0 ≫= (fun d => d !! "features") <> Some (ATensor1 [9]).
Proof.
  eexists _, _. split; [run_helper|].
  split; [by vm_compute|]. by vm_compute.
Qed.

(** Scenario B of the specification: a symmetric input keeps its
    attributes. *)
Example scenario_B_edge :
  exists g self',
    generate_graph scenario_B (graph_lifting true) = (Ok g, self') /\
    nx.edges g 0 1 = Some (dict_features_dim (ATensor1 [5]) 1) /\
    nx.edges g 1 0 = Some (dict_features_dim (ATensor1 [5]) 1).
Proof.
  eexists _, _. split; [run_helper|].
  split; by vm_compute.
Qed.

Example three_edges_raise :
  generate_graph three_edges (graph_lifting true) =
  (Raise IndexError, graph_lifting true).
Proof.
  eapply asymmetric_three_edges_raise; reflexivity.
Defined.

Lemma nodes_outside_feature_matrix_witness :
  let g := build_graph dangling_edge (plain_edges dangling_edge) in
  nx.has_node g 1 = true /\
  nx.nodes g 1 = Some ∅ /\
  (forall n row, row_at (x dangling_edge) n = Some row ->
     nx.nodes g n = Some (dict_features_dim (ATensor1 row) 0)) /\
  (forall n d, nx.nodes g n = Some d -> row_at (x dangling_edge) n = None -> d = ∅).
Proof.
  apply (nodes_outside_feature_matrix
           torch_geometric.is_undirected torch_geometric.to_undirected
           dangling_edge (graph_lifting false)
           (set_contains_edge_attr false (graph_lifting false))).
  - apply helper_plain_returns. reflexivity.
  - reflexivity.
  - right. apply list_elem_of_singleton. reflexivity.
  - simpl. lia.
Defined.

Lemma dimension_tags_witness :
  let g := build_graph scenario_B
             [(0, 1, Some (dict_features_dim (ATensor1 [5]) 1));
              (1, 0, Some (dict_features_dim (ATensor1 [5]) 1))] in
  (forall n row, row_at (x scenario_B) n = Some row ->
     exists d, nx.nodes g n = Some d /\ d !! "dim" = Some (AInt 0)) /\
  (forall u v d, nx.edges g u v = Some d -> d !! "dim" = Some (AInt 1)).
Proof.
  apply (dimension_tags
           torch_geometric.is_undirected torch_geometric.to_undirected
           scenario_B (graph_lifting true)
           (set_contains_edge_attr true (graph_lifting true))).
  run_helper.
Defined.

(** C6 as stated fails: with attribute preservation off, the edge
    between 0 and 1 has an empty dictionary, and so has node 1, which no
    row of the feature matrix describes. *)
Lemma dimension_tagging_counterexample :
  exists g self',
    generate_graph dangling_edge (graph_lifting false) = (Ok g, self') /\
    nx.nodes g 1 = Some ∅ /\
    nx.edges g 0 1 = Some ∅ /\
    ~ dimension_tagging g.
Proof.
  eexists _, _. split; [apply helper_plain_returns; reflexivity|].
  split; [by vm_compute|]. split; [by vm_compute|].
  intros [_ Hedges]. specialize (Hedges 0 1 ∅).
  rewrite lookup_empty in Hedges. discriminate Hedges. by vm_compute.
Qed.

(** The four entries of [doubled_edges] leave one edge, with the
    attribute of the entry added last. *)
Example doubled_edges_last_wins :
  exists g self',
    generate_graph doubled_edges (graph_lifting true) = (Ok g, self') /\
    nx.edges g 0 1 = Some (dict_features_dim (ATensor1 [7]) 1) /\
    nx.edges g 1 0 = Some (dict_features_dim (ATensor1 [7]) 1).
Proof.
  eexists _, _. split; [run_helper|].
  split; by vm_compute.
Qed.

(** C4 as stated fails: a call of the helper leaves a new attribute on
    the instance, and a later call on other data changes it. *)
Lemma helper_assigns_instance_attribute :
  (generate_graph scenario_A (graph_lifting true)).2 <> graph_lifting true /\
  contains_edge_attr (generate_graph scenario_A (graph_lifting true)).2 = Some false /\
  contains_edge_attr
    (generate_graph scenario_B
       (generate_graph scenario_A (graph_lifting true)).2).2 = Some true.
Proof.
  split; [|split; by vm_compute].
  intros H. apply (f_equal contains_edge_attr) in H.
  vm_compute in H. discriminate H.
Qed.

(** * Properties of the constructors and of [forward] *)

Section liftings_facts.

Context {value : Type}.
Variable SumLifting : unit -> @strategy value.
Variable IdentityTransform : unit -> @strategy value.
Variable BaseTransform_init : gmap string value -> result unit.

#[local] Abbreviation registry := (FEATURE_LIFTINGS SumLifting IdentityTransform).
#[local] Abbreviation new :=
  (construct SumLifting IdentityTransform BaseTransform_init).

Lemma registry_SumLifting : registry !! Some "SumLifting" = Some SumLifting.
Proof. unfold FEATURE_LIFTINGS. by rewrite lookup_insert_eq. Qed.

Lemma registry_None : registry !! None = Some IdentityTransform.
Proof. unfold FEATURE_LIFTINGS. by rewrite lookup_insert_ne, lookup_insert_eq. Qed.

Lemma registry_unknown name :
  name <> Some "SumLifting" -> name <> None -> registry !! name = None.
Proof.
  intros H1 H2. unfold FEATURE_LIFTINGS.
  by rewrite !lookup_insert_ne, lookup_empty.
Qed.

(** Every constructor ends in the registry lookup of the base class, on
    the name given or on the default of the class. *)
Lemma construct_lookup c feature_lifting preserve_edge_attr kwargs :
  BaseTransform_init kwargs = Ok tt ->
  new c feature_lifting preserve_edge_attr kwargs =
  match registry !! arg feature_lifting (default_name c) with
  | Some cls => Ok (cls tt)
  | None => Raise KeyError
  end.
Proof.
  intros Hbase.
  destruct c; unfold construct, GraphLifting_init, PointCloudLifting_init,
    CellComplexLifting_init, SimplicialLifting_init, HypergraphLifting_init,
    CombinatorialLifting_init, AbstractLifting_init, result_map; simpl;
    rewrite Hbase; simpl;
    by destruct (registry !! _).
Qed.

(** C5: once the inherited initialiser has accepted the remaining
    keyword arguments, constructing any of the seven classes with a name
    that is neither ["SumLifting"] nor [None] raises [KeyError]; with
    ["SumLifting"], with [None], or with no name at all it returns an
    instance holding the instance of the registered class. *)
Theorem construction_resolves_strategy c preserve_edge_attr kwargs :
  BaseTransform_init kwargs = Ok tt ->
  (forall name, name <> Some "SumLifting" -> name <> None ->
     construct SumLifting IdentityTransform BaseTransform_init
       c (Some name) preserve_edge_attr kwargs = Raise KeyError) /\
  construct SumLifting IdentityTransform BaseTransform_init
    c (Some (Some "SumLifting")) preserve_edge_attr kwargs = Ok (SumLifting tt) /\
  construct SumLifting IdentityTransform BaseTransform_init
    c (Some None) preserve_edge_attr kwargs = Ok (IdentityTransform tt) /\
  (exists resolved,
     construct SumLifting IdentityTransform BaseTransform_init
       c None preserve_edge_attr kwargs = Ok resolved).
Proof.
  intros Hbase. repeat split.
  - intros name H1 H2. rewrite construct_lookup by done. simpl.
    by rewrite registry_unknown.
  - rewrite construct_lookup by done. simpl. by rewrite registry_SumLifting.
  - rewrite construct_lookup by done. simpl. by rewrite registry_None.
  - rewrite construct_lookup by done.
    destruct c; simpl; rewrite ?registry_None, ?registry_SumLifting; eauto.
Qed.

(** C8: constructed without a [feature_lifting] argument, each of the six
    domain classes holds an instance of [SumLifting], and the base class
    an instance of [IdentityTransform], the entry of the registry under
    [None]. *)
Theorem default_feature_lifting c preserve_edge_attr kwargs :
  BaseTransform_init kwargs = Ok tt ->
  construct SumLifting IdentityTransform BaseTransform_init
    c None preserve_edge_attr kwargs =
    Ok (match c with
        | AbstractLifting_cls => IdentityTransform tt
        | _ => SumLifting tt
        end) /\
  FEATURE_LIFTINGS SumLifting IdentityTransform !! None = Some IdentityTransform /\
  FEATURE_LIFTINGS SumLifting IdentityTransform !! Some "SumLifting" = Some SumLifting.
Proof.
  intros Hbase. split; [|split; [apply registry_None|apply registry_SumLifting]].
  rewrite construct_lookup by done.
  destruct c; simpl; by rewrite ?registry_None, ?registry_SumLifting.
Qed.

Section forward_facts.

Context {Self : Type}.
Variable self_feature_lifting : Self -> @strategy value.
Variable self_lift_topology : gmap string value -> M Self (gmap string value).

#[local] Abbreviation apply := (forward self_feature_lifting self_lift_topology).

(** The four steps of [forward] on a run in which the topology builder
    and the feature lifting return. *)
Lemma forward_run data self topology self' enriched :
  self_lift_topology data self = (Ok topology, self') ->
  self_feature_lifting self' topology = Ok enriched ->
  apply data self = (Data_kwargs (to_dict data) enriched, self').
Proof.
  intros Hlift Hfeat. unfold forward, bind, get, lift, ret.
  rewrite Hlift, Hfeat. by destruct (Data_kwargs (to_dict data) enriched).
Qed.

Lemma forward_Ok_inv data self out self' :
  apply data self = (Ok out, self') ->
  exists topology enriched,
    self_lift_topology data self = (Ok topology, self') /\
    self_feature_lifting self' topology = Ok enriched /\
    data ##ₘ enriched /\
    out = data ∪ enriched.
Proof.
  unfold forward, bind, get, lift, ret, Data_kwargs, to_dict.
  destruct (self_lift_topology data self) as [[topology|] s1] eqn:Hlift;
    [|intros [=]].
  destruct (self_feature_lifting s1 topology) as [enriched|] eqn:Hfeat;
    [|intros [=]].
  simpl. case_decide; simpl; [|intros [=]].
  intros [= <- <-]. exists topology, enriched. split_and!; try done.
  by apply map_disjoint_dom.
Qed.

(** C2, amended: when the topology builder and the feature lifting
    return, [forward] returns the union of the snapshot of the input and
    the enriched descriptor if the two share no key, and raises
    [TypeError] if they share one. *)
Theorem forward_union_or_TypeError data self topology self' enriched :
  self_lift_topology data self = (Ok topology, self') ->
  self_feature_lifting self' topology = Ok enriched ->
  forward self_feature_lifting self_lift_topology data self =
    if decide (dom (to_dict data) ##@{gset string} dom enriched)
    then (Ok (to_dict data ∪ enriched), self')
    else (Raise TypeError, self').
Proof.
  intros Hlift Hfeat. rewrite (forward_run _ _ _ _ _ Hlift Hfeat).
  unfold Data_kwargs. by case_decide.
Qed.

(** C3, amended: when the topology builder and the feature lifting
    return and the enriched descriptor shares no field name with the
    input, [forward] returns a record in which every field of the input
    is present with its value; when the two share a field name,
    [forward] raises [TypeError] and returns no record, so that no field
    of the input is delivered, whether the descriptor supplies it or
    not. *)
Theorem field_preservation_or_TypeError data self topology self' enriched :
  self_lift_topology data self = (Ok topology, self') ->
  self_feature_lifting self' topology = Ok enriched ->
  if decide (dom data ##@{gset string} dom enriched)
  then exists out,
         forward self_feature_lifting self_lift_topology data self =
           (Ok out, self') /\
         forall k v, data !! k = Some v -> out !! k = Some v
  else forward self_feature_lifting self_lift_topology data self =
         (Raise TypeError, self').
Proof.
  intros Hlift Hfeat. rewrite (forward_run _ _ _ _ _ Hlift Hfeat).
  unfold Data_kwargs, to_dict.
  destruct (decide (dom data ##@{gset string} dom enriched)); [|done].
  eexists. split; [done|]. intros k v Hk. by apply lookup_union_Some_l.
Qed.

(** [forward] assigns no attribute of the instance itself. *)
Lemma forward_state data self :
  (apply data self).2 = (self_lift_topology data self).2.
Proof.
  unfold forward, bind, get, lift, ret.
  destruct (self_lift_topology data self) as [[topology|] s1]; [|done].
  destruct (self_feature_lifting s1 topology) as [enriched|]; [|done].
  simpl. by destruct (Data_kwargs (to_dict data) enriched).
Qed.

(** In a run that returns, no field of the input has a namesake in the
    enriched descriptor, so all fields of the input are kept. *)
Lemma forward_keeps_fields data self out self' k v :
  apply data self = (Ok out, self') -> data !! k = Some v -> out !! k = Some v.
Proof.
  intros (topology & enriched & _ & _ & _ & ->)%forward_Ok_inv Hk.
  by apply lookup_union_Some_l.
Qed.

End forward_facts.

(** C7: [lift_topology] as any of the seven classes defines it raises
    [NotImplementedError] on every input, and so does [forward] on an
    instance that is left with that definition. *)
Theorem abstract_lift_topology_raises (c : lifting_class) {Self : Type}
    (self_feature_lifting : Self -> @strategy value) data (self : Self) :
  lift_topology c data self = (Raise NotImplementedError, self) /\
  forward self_feature_lifting (lift_topology c) data self =
    (Raise NotImplementedError, self).
Proof. by destruct c. Qed.

End liftings_facts.

(** C4, amended: [forward] assigns no attribute of the instance itself,
    it leaves the instance as [lift_topology] left it.  The graph helper
    does assign one: its result depends on the instance only through
    [preserve_edge_attr], whatever earlier calls left, and it changes
    neither the strategy nor [preserve_edge_attr]; but a call that
    returns a graph leaves [contains_edge_attr] assigned on the instance,
    while a call that raises leaves the instance as it was. *)
Theorem instance_state_across_calls :
  (forall (value Self : Type) (self_feature_lifting : Self -> @strategy value)
          (self_lift_topology : gmap string value -> M Self (gmap string value))
          data self,
     (forward self_feature_lifting self_lift_topology data self).2 =
     (self_lift_topology data self).2) /\
  (forall (strategy : Type) is_undirected to_undirected data
          (self : GraphLifting strategy),
     let run := _generate_graph_from_data is_undirected to_undirected data in
     (forall (resolved : strategy) flag,
        (run (mkGraphLifting resolved (preserve_edge_attr self) flag)).1 =
        (run self).1) /\
     graph_feature_lifting (run self).2 = graph_feature_lifting self /\
     preserve_edge_attr (run self).2 = preserve_edge_attr self /\
     (run self).2 =
       match (run self).1 with
       | Ok _ => set_contains_edge_attr (carries_edge_attr self data) self
       | Raise _ => self
       end).
Proof.
  split.
  - intros. apply forward_state.
  - intros. apply helper_state.
Qed.

(** ** The constructors and [forward] on concrete inputs *)

Lemma construction_resolves_strategy_witness :
  (forall name, name <> Some "SumLifting" -> name <> None ->
     new_lifting GraphLifting_cls (Some name) = Raise KeyError) /\
  new_lifting GraphLifting_cls (Some (Some "SumLifting")) = Ok (adds_x_1 tt) /\
  new_lifting GraphLifting_cls (Some None) = Ok (returns_argument tt) /\
  (exists resolved, new_lifting GraphLifting_cls None = Ok resolved).
Proof.
  apply (construction_resolves_strategy adds_x_1 returns_argument object_init).
  reflexivity.
Defined.

(** Scenario D of the specification. *)
Example scenario_D c : new_lifting c (Some (Some "Bogus")) = Raise KeyError.
Proof. by destruct c; vm_compute. Qed.

(** With a keyword argument that the inherited initialiser rejects, the
    constructor raises before it reaches the registry. *)
Example unexpected_keyword_argument :
  construct adds_x_1 returns_argument object_init AbstractLifting_cls
    (Some (Some "Bogus")) None (<["complex_dim" := 2]> ∅) = Raise TypeError.
Proof. by vm_compute. Qed.

Lemma default_feature_lifting_witness :
  new_lifting SimplicialLifting_cls None = Ok (adds_x_1 tt) /\
  FEATURE_LIFTINGS adds_x_1 returns_argument !! None = Some returns_argument /\
  FEATURE_LIFTINGS adds_x_1 returns_argument !! Some "SumLifting" = Some adds_x_1.
Proof.
  apply (default_feature_lifting adds_x_1 returns_argument object_init
           SimplicialLifting_cls None ∅).
  reflexivity.
Defined.

(** C2 as stated fails: when the descriptor has a field named like a
    field of the input, [forward] raises and returns no record. *)
Lemma forward_collision_counterexample :
  record_x !! "x" = Some 1 /\
  relabel_x record_x tt = (Ok (<["x" := 2]> ∅), tt) /\
  forward (fun _ : unit => pass_through) relabel_x record_x tt = (Raise TypeError, tt).
Proof. split; [|split]; by vm_compute. Qed.

Lemma forward_union_or_TypeError_witness :
  forward (fun _ : unit => pass_through) add_x_1 record_x tt =
    if decide (dom (to_dict record_x) ##@{gset string}
               dom (<["x_1" := 2]> (∅ : gmap string Z)))
    then (Ok (to_dict record_x ∪ <["x_1" := 2]> ∅), tt)
    else (Raise TypeError, tt).
Proof.
  apply (forward_union_or_TypeError (fun _ : unit => pass_through) add_x_1
           record_x tt (<["x_1" := 2]> ∅) tt (<["x_1" := 2]> ∅));
    reflexivity.
Defined.

Example forward_add_x_1 :
  forward (fun _ : unit => pass_through) add_x_1 record_x tt =
  (Ok (<["x" := 1]> (<["x_1" := 2]> ∅)), tt).
Proof. by vm_compute. Qed.

(** * Further properties of the graph helper *)

Lemma last_filter_is_Some {A} (P : A -> Prop) `{!forall a, Decision (P a)} (l : list A) :
  is_Some (last (filter P l)) <-> exists a, a ∈ l /\ P a.
Proof.
  rewrite last_is_Some. split.
  - intros Hne. destruct (filter P l) as [|a l'] eqn:Hf; [done|].
    assert (Ha : a ∈ filter P l) by (rewrite Hf; apply elem_of_cons; by left).
    apply list_elem_of_filter in Ha as [? ?]. by exists a.
  - intros (a & Ha & HP) Hnil. by apply (filter_nil_not_elem_of _ _ a Hnil HP).
Qed.

Lemma filter_fmap {A B} (f : A -> B) (P : B -> Prop) `{!forall b, Decision (P b)}
    (l : list A) :
  filter P (f <$> l) = f <$> filter (fun a => P (f a)) l.
Proof.
  induction l as [|a l IH]; [done|]. rewrite fmap_cons, !filter_cons, IH.
  by destruct (decide (P (f a))).
Qed.

Lemma comprehension_fmap {A B} (f : A -> result B) (g : A -> B) (l : list A) :
  (forall a, a ∈ l -> f a = Ok (g a)) -> comprehension f l = Ok (g <$> l).
Proof.
  induction l as [|a l IH]; intros Hf; [done|]. simpl.
  rewrite (Hf a) by (apply elem_of_cons; by left). simpl.
  rewrite IH; [done|]. intros a' Ha'. apply Hf, elem_of_cons. by right.
Qed.

Lemma elem_of_enumerate {A} (l : list A) k a :
  (k, a) ∈ enumerate l <-> l !! k = Some a.
Proof.
  unfold enumerate. rewrite list_elem_of_lookup. split.
  - intros [i Hi]. rewrite list_lookup_imap in Hi.
    destruct (l !! i) eqn:E; simpl in Hi; [|done]. by injection Hi as <- <-.
  - intros H. exists k. by rewrite list_lookup_imap, H.
Qed.

Lemma row_at_is_Some rows n :
  is_Some (row_at rows n) <-> 0 <= n < Z.of_nat (length rows).
Proof.
  unfold row_at. case_decide.
  - rewrite lookup_lt_is_Some. lia.
  - split; [by intros [? ?]|lia].
Qed.

Section graph_helper_more.

Import nx nx_facts.

Context {strategy : Type}.
Variable is_undirected : list Z * list Z -> list (list Z) -> bool.
Variable to_undirected :
  list Z * list Z -> list (list Z) -> (list Z * list Z) * list (list Z).

#[local] Abbreviation helper := (_generate_graph_from_data is_undirected to_undirected).
#[local] Abbreviation entries := (edge_entries is_undirected to_undirected).
#[local] Abbreviation pairs data := (zip (edge_index data).1 (edge_index data).2).

Lemma entry_iff_column data (self : GraphLifting strategy) es u v :
  entries self data = Ok es ->
  (exists e, e ∈ es /\ same_pair u v e) <-> is_column data u v \/ is_column data v u.
Proof.
  intros Hes%entries_pairs. unfold is_column. rewrite <- Hes. split.
  - intros ([[i j] dd] & He & Hp).
    apply (list_elem_of_fmap_2 fst) in He. simpl in He.
    destruct Hp as [[? ?]|[? ?]]; simpl in *; subst; auto.
  - intros [H|H]; apply list_elem_of_fmap in H as ([[i j] dd] & Heq & He);
      simpl in Heq; injection Heq as -> ->;
      exists (i, j, dd); (split; [done|]); unfold same_pair; simpl; auto.
Qed.

Lemma has_edge_graph data (self : GraphLifting strategy) es u v :
  entries self data = Ok es ->
  has_edge (build_graph data es) u v = true <->
  is_column data u v \/ is_column data v u.
Proof.
  intros Hes.
  destruct (helper_graph is_undirected to_undirected data self es Hes)
    as (_ & _ & _ & Hedges).
  unfold has_edge. rewrite bool_decide_eq_true.
  change (adj_get (build_graph data es) u v) with (edges (build_graph data es) u v).
  rewrite Hedges, fmap_is_Some, last_filter_is_Some.
  by apply (entry_iff_column data self).
Qed.

Lemma has_node_graph data (self : GraphLifting strategy) es n :
  entries self data = Ok es ->
  has_node (build_graph data es) n = true <->
  0 <= n < Z.of_nat (length (x data)) \/ is_endpoint data n.
Proof.
  intros Hes.
  destruct (helper_graph is_undirected to_undirected data self es Hes)
    as (_ & _ & Hnodes & _).
  unfold has_node. rewrite bool_decide_eq_true.
  change (_node (build_graph data es) !! n) with (nodes (build_graph data es) n).
  rewrite Hnodes, <- row_at_is_Some, <- (endpoint_entries _ _ data self es n Hes).
  destruct (row_at (x data) n) as [row|]; [by split; eauto|].
  case_decide; split; eauto.
  - intros [? [=]].
  - intros [[? [=]]|?]; done.
Qed.

Lemma column_endpoints data u v :
  is_column data u v -> is_endpoint data u /\ is_endpoint data v.
Proof.
  intros H. unfold is_endpoint. rewrite !Exists_exists.
  split; exists (u, v); simpl; auto.
Qed.

(** X1: the edges of a returned graph are the columns of [data.edge_index]
    taken in both directions: [u] and [v] are adjacent exactly when
    [(u, v)] or [(v, u)] is a column, with or without attribute
    preservation. *)
Theorem edge_set_of_graph data (self self' : GraphLifting strategy) g u v :
  _generate_graph_from_data is_undirected to_undirected data self =
    (Ok g, self') ->
  has_edge g u v = true <-> is_column data u v \/ is_column data v u.
Proof.
  intros (es & Hes & -> & _)%helper_Ok_inv. by eapply has_edge_graph.
Qed.

(** X2: the nodes of a returned graph are the row indices of [data.x]
    together with the endpoints of the edge index, and both endpoints of
    every edge are nodes of the graph. *)
Theorem node_set_of_graph data (self self' : GraphLifting strategy) g :
  _generate_graph_from_data is_undirected to_undirected data self =
    (Ok g, self') ->
  (forall n, has_node g n = true <->
     0 <= n < Z.of_nat (length (x data)) \/ is_endpoint data n) /\
  (forall u v, has_edge g u v = true ->
     has_node g u = true /\ has_node g v = true).
Proof.
  intros (es & Hes & -> & _)%helper_Ok_inv. split.
  - intros n. by eapply has_node_graph.
  - intros u v Huv. rewrite !(has_node_graph data self es) by done.
    apply (has_edge_graph data self es u v Hes) in Huv as [H|H];
      apply column_endpoints in H as [? ?]; auto.
Qed.

(** X3: when the edge index has no column, the helper returns a graph
    whatever the setting of [preserve_edge_attr] and whatever
    [is_undirected] answers: it has no edge, and its nodes are the rows
    of [data.x], each with [{features: row, dim: 0}]. *)
Theorem graph_without_edges data (self : GraphLifting strategy) :
  zip (edge_index data).1 (edge_index data).2 = [] ->
  exists g,
    _generate_graph_from_data is_undirected to_undirected data self =
      (Ok g, set_contains_edge_attr (carries_edge_attr self data) self) /\
    (forall u v, has_edge g u v = false) /\
    (forall n, nodes g n =
       (fun row => dict_features_dim (ATensor1 row) 0) <$> row_at (x data) n).
Proof.
  intros Hnil.
  assert (Hes : entries self data = Ok []).
  { unfold edge_entries, attributed_edges, plain_edges, symmetrize. simpl.
    rewrite Hnil. by destruct (carries_edge_attr self data). }
  destruct (helper_graph is_undirected to_undirected data self [] Hes)
    as (Hrun & _ & Hnodes & Hedges).
  eexists. split; [exact Hrun|]. split.
  - intros u v. unfold has_edge. apply bool_decide_eq_false.
    change (~ is_Some (edges (build_graph data []) u v)).
    rewrite Hedges. by intros [? [=]].
  - intros n. rewrite Hnodes. destruct (row_at (x data) n); [done|].
    rewrite decide_False; [done|]. by intros ?%Exists_nil.
Qed.


(** X5: with attribute preservation on, edge attributes whose rows are
    aligned with the columns of the edge index, and an input that
    [is_undirected] accepts, the helper returns a graph in which the edge
    between [u] and [v] carries [dim=1] and, as [features], the attribute
    row of the last column that joins [u] and [v]. *)
Theorem aligned_attributes data (self : GraphLifting strategy) ea :
  preserve_edge_attr self = true ->
  edge_attr data = Some ea ->
  is_undirected (edge_index data) ea = true ->
  length (zip (edge_index data).1 (edge_index data).2) = length ea ->
  exists g,
    _generate_graph_from_data is_undirected to_undirected data self =
      (Ok g, set_contains_edge_attr true self) /\
    forall u v,
      edges g u v =
      match last_column data u v with
      | Some k => (fun row => dict_features_dim (ATensor1 row) 1) <$> ea !! k
      | None => None
      end.
Proof.
  intros Hp Hea Hund Hlen.
  set (h := fun c : nat * (Z * Z) =>
    (c.2.1, c.2.2, Some (dict_features_dim (ATensor1 (default [] (ea !! c.1))) 1))).
  assert (Hc : carries_edge_attr self data = true).
  { unfold carries_edge_attr, _data_has_edge_attr. by rewrite Hp, Hea. }
  assert (Hes : entries self data = Ok (h <$> enumerate (pairs data))).
  { unfold edge_entries. rewrite Hc.
    unfold attributed_edges, symmetrize. rewrite Hea. simpl. rewrite Hund.
    apply comprehension_fmap. intros [k [i j]] Hk%elem_of_enumerate. simpl.
    destruct (lookup_lt_is_Some_2 ea k) as [row Hrow].
    { rewrite <- Hlen. by eapply lookup_lt_Some. }
    unfold h. simpl. by rewrite Hrow. }
  destruct (helper_graph is_undirected to_undirected data self _ Hes)
    as (Hrun & _ & _ & Hedges).
  eexists. split; [by rewrite Hrun, Hc|].
  intros u v. rewrite Hedges, filter_fmap, fmap_last. unfold last_column.
  rewrite (list_filter_iff _ (joins u v)) by (by intros [k [i j]]).
  destruct (last (filter (joins u v) (enumerate (pairs data)))) as [[k [i j]]|] eqn:El;
    simpl; [|done].
  apply last_Some_elem_of, list_elem_of_filter in El as [_ Hk%elem_of_enumerate].
  destruct (lookup_lt_is_Some_2 ea k) as [row Hrow].
  { rewrite <- Hlen. by eapply lookup_lt_Some. }
  unfold payload, h. simpl. by rewrite Hrow.
Qed.

(** The dictionary of a plain edge is empty, and the edge is there
    exactly for the columns of the edge index. *)
Lemma plain_edge_lookup data (self : GraphLifting strategy) u v :
  carries_edge_attr self data = false ->
  edges (build_graph data (plain_edges data)) u v =
  if decide (is_column data u v \/ is_column data v u) then Some ∅ else None.
Proof.
  intros Hc.
  assert (Hes : edge_entries is_undirected to_undirected self data =
                Ok (plain_edges data)) by (unfold edge_entries; by rewrite Hc).
  destruct (helper_graph is_undirected to_undirected data self _ Hes)
    as (_ & _ & _ & Hedges).
  pose proof (entry_iff_column data self _ u v Hes) as Hiff.
  rewrite <- (last_filter_is_Some (same_pair u v)) in Hiff.
  rewrite Hedges.
  destruct (last (filter (same_pair u v) (plain_edges data))) as [e|] eqn:El.
  - rewrite decide_True by (apply Hiff; eauto). simpl. f_equal.
    apply last_Some_elem_of, list_elem_of_filter in El as [_ He].
    pose proof (plain_edges_payload data) as H. rewrite Forall_forall in H.
    unfold payload. by rewrite (H _ He).
  - rewrite decide_False; [done|]. intros H%Hiff. by destruct H.
Qed.

Lemma endpoint_iff_column data n :
  is_endpoint data n <-> exists m, is_column data n m \/ is_column data m n.
Proof.
  unfold is_endpoint, is_column. rewrite Exists_exists. split.
  - intros ([a b] & Hab & [->| ->]); simpl; eauto.
  - intros (m & [H|H]); eexists; (split; [exact H|]); simpl; auto.
Qed.

Lemma bool_eq_iff (b1 b2 : bool) : (b1 = true <-> b2 = true) -> b1 = b2.
Proof. destruct b1, b2; naive_solver. Qed.

(** X7: the setting of [preserve_edge_attr] and the edge attributes
    change the dictionaries of the edges only: two returned graphs built
    from the same node features and the same edge index have the same
    nodes, with the same dictionaries, and the same edges. *)
Theorem topology_independent_of_attributes data edge_attr'
    (self1 self1' self2 self2' : GraphLifting strategy) g1 g2 :
  _generate_graph_from_data is_undirected to_undirected data self1 =
    (Ok g1, self1') ->
  _generate_graph_from_data is_undirected to_undirected
    (with_edge_attr edge_attr' data) self2 = (Ok g2, self2') ->
  forall n u v,
    nodes g1 n = nodes g2 n /\
    has_node g1 n = has_node g2 n /\
    has_edge g1 u v = has_edge g2 u v.
Proof.
  intros (es1 & Hes1 & -> & _)%helper_Ok_inv (es2 & Hes2 & -> & _)%helper_Ok_inv n u v.
  destruct (helper_graph _ _ _ _ _ Hes1) as (_ & _ & Hn1 & _).
  destruct (helper_graph _ _ _ _ _ Hes2) as (_ & _ & Hn2 & _).
  assert (Hn : nodes (build_graph data es1) n =
               nodes (build_graph (with_edge_attr edge_attr' data) es2) n).
  { rewrite Hn1, Hn2. simpl. destruct (row_at (x data) n); [done|].
    apply decide_ext.
    rewrite (endpoint_entries _ _ _ _ _ n Hes1), (endpoint_entries _ _ _ _ _ n Hes2).
    done. }
  split; [done|]. split.
  - unfold has_node. apply bool_decide_ext. unfold nodes in Hn. by rewrite Hn.
  - apply bool_eq_iff.
    rewrite (has_edge_graph _ _ _ u v Hes1), (has_edge_graph _ _ _ u v Hes2). done.
Qed.

(** X8: without attribute preservation the graph depends on the edge
    index only through the set of undirected pairs it lists: two inputs
    with the same node features whose edge indices join the same pairs of
    nodes, in whatever order, direction and multiplicity, give graphs
    with the same nodes and the same edges. *)
Theorem plain_graph_of_column_set data data' (self self' : GraphLifting strategy) :
  preserve_edge_attr self = false ->
  preserve_edge_attr self' = false ->
  x data = x data' ->
  (forall u v, is_column data u v \/ is_column data v u <->
               is_column data' u v \/ is_column data' v u) ->
  exists g g',
    _generate_graph_from_data is_undirected to_undirected data self =
      (Ok g, set_contains_edge_attr false self) /\
    _generate_graph_from_data is_undirected to_undirected data' self' =
      (Ok g', set_contains_edge_attr false self') /\
    forall n u v, nodes g n = nodes g' n /\ edges g u v = edges g' u v.
Proof.
  intros Hp Hp' Hx Hcols.
  assert (Hc : carries_edge_attr self data = false)
    by (unfold carries_edge_attr; by rewrite Hp).
  assert (Hc' : carries_edge_attr self' data' = false)
    by (unfold carries_edge_attr; by rewrite Hp').
  assert (Hes : entries self data = Ok (plain_edges data))
    by (unfold edge_entries; by rewrite Hc).
  assert (Hes' : entries self' data' = Ok (plain_edges data'))
    by (unfold edge_entries; by rewrite Hc').
  eexists _, _. split; [by apply helper_plain_returns|].
  split; [by apply helper_plain_returns|].
  intros n u v. split.
  - destruct (helper_graph _ _ _ _ _ Hes) as (_ & _ & Hn & _).
    destruct (helper_graph _ _ _ _ _ Hes') as (_ & _ & Hn' & _).
    rewrite Hn, Hn', Hx. destruct (row_at (x data') n); [done|].
    apply decide_ext.
    rewrite (endpoint_entries _ _ _ _ _ n Hes), (endpoint_entries _ _ _ _ _ n Hes').
    rewrite !endpoint_iff_column. split; intros [m Hm]; exists m; by apply Hcols.
  - rewrite (plain_edge_lookup data self u v Hc), (plain_edge_lookup data' self' u v Hc').
    by apply decide_ext.
Qed.

End graph_helper_more.

(** * Further properties of the constructors and of [forward] *)

Section liftings_more.

Context {value : Type}.
Variable SumLifting : unit -> @strategy value.
Variable IdentityTransform : unit -> @strategy value.
Variable BaseTransform_init : gmap string value -> result unit.

(** X9: given a name and called without [preserve_edge_attr], each of
    the seven constructors raises the same exception or resolves the same
    strategy as [GraphLifting.__init__] does for that name, whatever
    [preserve_edge_attr] the latter is given: the classes differ in
    their defaults only. *)
Theorem constructors_agree_on_name c name preserve_edge_attr kwargs :
  construct SumLifting IdentityTransform BaseTransform_init
    c (Some name) None kwargs =
  construct SumLifting IdentityTransform BaseTransform_init
    GraphLifting_cls (Some name) preserve_edge_attr kwargs.
Proof.
  destruct c; unfold construct, GraphLifting_init, PointCloudLifting_init,
    CellComplexLifting_init, SimplicialLifting_init, HypergraphLifting_init,
    CombinatorialLifting_init, AbstractLifting_init, result_map; simpl;
    destruct (BaseTransform_init kwargs) as [[]|]; simpl; try done;
    by destruct (FEATURE_LIFTINGS SumLifting IdentityTransform !! name).
Qed.

(** X10: the inherited initialiser runs before the registry lookup: when
    it raises, every constructor raises the same exception, for a known
    name as for an unknown one. *)
Theorem base_initialiser_runs_first c feature_lifting preserve_edge_attr kwargs e :
  BaseTransform_init kwargs = Raise e ->
  construct SumLifting IdentityTransform BaseTransform_init
    c feature_lifting preserve_edge_attr kwargs = Raise e.
Proof.
  intros Hbase.
  destruct c; unfold construct, GraphLifting_init, PointCloudLifting_init,
    CellComplexLifting_init, SimplicialLifting_init, HypergraphLifting_init,
    CombinatorialLifting_init, AbstractLifting_init, result_map; simpl;
    by rewrite Hbase.
Qed.


Section forward_more.

Context {Self : Type}.
Variable self_feature_lifting : Self -> @strategy value.
Variable self_lift_topology : gmap string value -> M Self (gmap string value).

Lemma forward_Ok_union data self topology s enriched out self' :
  self_lift_topology data self = (Ok topology, s) ->
  self_feature_lifting s topology = Ok enriched ->
  forward self_feature_lifting self_lift_topology data self = (Ok out, self') ->
  s = self' /\ data ##ₘ enriched /\ out = data ∪ enriched.
Proof.
  intros Hlift Hfeat (top & enr & Hlift' & Hfeat' & Hdisj & ->)%forward_Ok_inv.
  rewrite Hlift in Hlift'. injection Hlift' as <- <-.
  rewrite Hfeat in Hfeat'. by injection Hfeat' as <-.
Qed.

(** X12: the record [forward] returns has exactly the fields of the
    input and of the enriched descriptor: every field of the descriptor
    is in it with its value, its field names are those of the two, and
    it has as many fields as the two together. *)
Theorem lifted_fields_in_output data self topology s enriched out self' :
  self_lift_topology data self = (Ok topology, s) ->
  self_feature_lifting s topology = Ok enriched ->
  forward self_feature_lifting self_lift_topology data self = (Ok out, self') ->
  (forall k v, enriched !! k = Some v -> out !! k = Some v) /\
  dom out =@{gset string} dom data ∪ dom enriched /\
  size out = (size data + size enriched)%nat.
Proof.
  intros Hlift Hfeat Hrun.
  destruct (forward_Ok_union _ _ _ _ _ _ _ Hlift Hfeat Hrun) as (_ & Hdisj & ->).
  split; [|split].
  - intros k v Hk. by apply lookup_union_Some_r.
  - apply dom_union_L.
  - by apply map_size_disj_union.
Qed.

(** X13: [forward] cannot be applied to its own output when the lifting
    produces one of its field names again: the second call raises
    [TypeError]. *)
Theorem second_application_raises data self topology s enriched out
    topology2 s2 enriched2 k :
  self_lift_topology data self = (Ok topology, s) ->
  self_feature_lifting s topology = Ok enriched ->
  forward self_feature_lifting self_lift_topology data self = (Ok out, s) ->
  self_lift_topology out s = (Ok topology2, s2) ->
  self_feature_lifting s2 topology2 = Ok enriched2 ->
  is_Some (enriched !! k) ->
  is_Some (enriched2 !! k) ->
  forward self_feature_lifting self_lift_topology out s = (Raise TypeError, s2).
Proof.
  intros Hlift Hfeat Hrun Hlift2 Hfeat2 Hk Hk2.
  destruct (forward_Ok_union _ _ _ _ _ _ _ Hlift Hfeat Hrun) as (_ & _ & ->).
  rewrite (forward_run _ _ _ _ _ _ _ Hlift2 Hfeat2).
  unfold Data_kwargs, to_dict. rewrite decide_False; [done|].
  intros Hdisj. apply (Hdisj k); apply elem_of_dom; [|done].
  rewrite lookup_union. destruct Hk as [v ->]. by destruct (data !! k).
Qed.

(** X14: when the enriched descriptor is empty, [forward] returns the
    input record unchanged. *)
Theorem empty_descriptor_returns_input data self topology self' :
  self_lift_topology data self = (Ok topology, self') ->
  self_feature_lifting self' topology = Ok ∅ ->
  forward self_feature_lifting self_lift_topology data self = (Ok data, self').
Proof.
  intros Hlift Hfeat. rewrite (forward_run _ _ _ _ _ _ _ Hlift Hfeat).
  unfold Data_kwargs, to_dict. rewrite decide_True.
  - by rewrite (right_id ∅ (∪)).
  - rewrite dom_empty_L. apply disjoint_empty_r.
Qed.

End forward_more.

End liftings_more.

Section graph_helper_flag.

Import nx nx_facts.

Context {strategy : Type}.
Variable is_undirected : list Z * list Z -> list (list Z) -> bool.
Variable to_undirected :
  list Z * list Z -> list (list Z) -> (list Z * list Z) * list (list Z).

(** X15: after a call that returns a graph, [contains_edge_attr] tells
    whether the edges carry features: when it is [True] every edge of the
    graph has a [features] entry, when it is [False] none has. *)
Theorem flag_tells_edge_features data (self self' : GraphLifting strategy) g :
  _generate_graph_from_data is_undirected to_undirected data self =
    (Ok g, self') ->
  exists flag,
    contains_edge_attr self' = Some flag /\
    forall u v d, edges g u v = Some d ->
      (is_Some (d !! "features") <-> flag = true).
Proof.
  intros (es & Hes & -> & ->)%helper_Ok_inv.
  destruct (helper_graph _ _ _ _ _ Hes) as (_ & _ & _ & Hedges).
  exists (carries_edge_attr self data). split; [done|].
  intros u v d. rewrite Hedges.
  destruct (last (filter (same_pair u v) es)) as [e|] eqn:He; [|done].
  intros [= <-]. apply last_Some_elem_of, list_elem_of_filter in He as [_ He].
  unfold edge_entries in Hes. unfold payload.
  destruct (carries_edge_attr self data).
  - apply attributed_edges_payload in Hes. rewrite Forall_forall in Hes.
    destruct (Hes _ He) as [f ->]. simpl.
    unfold dict_features_dim. rewrite lookup_insert_ne, lookup_insert_eq by done.
    split; eauto.
  - injection Hes as <-.
    pose proof (plain_edges_payload data) as H. rewrite Forall_forall in H.
    rewrite (H _ He). simpl. rewrite lookup_empty. split; [by intros [? [=]]|done].
Qed.

End graph_helper_flag.

Lemma Forall2_last_filter {A B} (R : A -> B -> Prop) (P : A -> Prop) (Q : B -> Prop)
    `{!forall a, Decision (P a)} `{!forall b, Decision (Q b)} l k :
  Forall2 R l k -> (forall a b, R a b -> (P a <-> Q b)) ->
  match last (filter P l), last (filter Q k) with
  | Some a, Some b => R a b
  | None, None => True
  | _, _ => False
  end.
Proof.
  induction 1 as [|a b l k Hab Hlk IH]; intros HPQ; [done|].
  specialize (IH HPQ). rewrite !filter_cons.
  destruct (decide (P a)) as [HP|HP], (decide (Q b)) as [HQ|HQ];
    try (exfalso; naive_solver); [|done].
  rewrite !last_cons.
  by destruct (last (filter P l)), (last (filter Q k)).
Qed.

Section graph_helper_columns.

Import nx nx_facts.

Context {strategy : Type}.
Variable is_undirected : list Z * list Z -> list (list Z) -> bool.
Variable to_undirected :
  list Z * list Z -> list (list Z) -> (list Z * list Z) * list (list Z).

(** The list of edge entries has one entry per column of
    [data.edge_index], in the order of the columns: a plain pair, or the
    pair with [edge_attr[edge_idx]] of line 140. *)
Lemma entries_columns data (self : GraphLifting strategy) es :
  edge_entries is_undirected to_undirected self data = Ok es ->
  Forall2
    (fun (c : nat * (Z * Z)) (e : Z * Z * option attrs) =>
       e.1 = c.2 /\
       if carries_edge_attr self data
       then exists f,
              getitem (symmetrize is_undirected to_undirected data).2 c.1 = Ok f /\
              e.2 = Some (dict_features_dim f 1)
       else e.2 = None)
    (enumerate (zip (edge_index data).1 (edge_index data).2)) es.
Proof.
  unfold edge_entries. destruct (carries_edge_attr self data).
  - unfold attributed_edges, symmetrize. simpl.
    intros H%comprehension_Ok. eapply Forall2_impl; [exact H|].
    intros [k [i j]] e. simpl.
    destruct (getitem _ k) as [f|]; simpl; [|done].
    intros [= <-]. split; [done|]. by exists f.
  - intros [= <-]. apply Forall2_same_length_lookup_2.
    + unfold enumerate, plain_edges. by rewrite length_imap, length_fmap.
    + intros i c e. unfold enumerate, plain_edges.
      rewrite list_lookup_imap, list_lookup_fmap.
      destruct (zip (edge_index data).1 (edge_index data).2 !! i) as [[a b]|];
        simpl; [|done].
      by intros [= <-] [= <-].
Qed.

(** C9: in every graph the helper returns, the columns [(i,j)] and
    [(j,i)] of [data.edge_index], and repeated columns, share one edge:
    [u] and [v] are adjacent exactly when some column joins them, in one
    direction or the other; both directions hold the same dictionary; and
    that dictionary is the payload of the last column that joins them,
    [{features: edge_attr[k], dim: 1}] for the column at position [k]
    when payloads are attached, the empty dictionary otherwise. *)
Theorem parallel_columns_collapse data (self self' : GraphLifting strategy) g u v :
  _generate_graph_from_data is_undirected to_undirected data self =
    (Ok g, self') ->
  edges g u v = edges g v u /\
  (has_edge g u v = true <-> is_column data u v \/ is_column data v u) /\
  (forall k, last_column data u v = Some k ->
     if carries_edge_attr self data
     then exists f,
            getitem (symmetrize is_undirected to_undirected data).2 k = Ok f /\
            edges g u v = Some (dict_features_dim f 1)
     else edges g u v = Some ∅).
Proof.
  intros (es & Hes & -> & _)%helper_Ok_inv.
  destruct (helper_graph _ _ _ _ _ Hes) as (_ & Hwf & _ & Hedges).
  split; [apply Hwf|]. split; [by eapply has_edge_graph|].
  intros k Hk. rewrite Hedges.
  pose proof (Forall2_last_filter _ (joins u v) (same_pair u v) _ _
                (entries_columns data self es Hes)) as Hlast.
  unfold last_column in Hk.
  destruct (last (filter (joins u v) _)) as [c|]; simpl in Hk; [|done].
  injection Hk as <-.
  destruct (last (filter (same_pair u v) es)) as [e|].
  - destruct Hlast as [_ He].
    { intros [k' [i j]] [[i' j'] dd] [[= -> ->] _]. done. }
    simpl. unfold payload. destruct (carries_edge_attr self data).
    + destruct He as (f & Hf & He). exists f. by rewrite He.
    + by rewrite He.
  - destruct Hlast.
    intros [k' [i j]] [[i' j'] dd] [[= -> ->] _]. done.
Qed.

End graph_helper_columns.

(** ** The further properties on concrete inputs *)

Lemma edge_set_of_graph_witness :
  nx.has_edge (build_graph scenario_A (plain_edges scenario_A)) 2 1 = true <->
  is_column scenario_A 2 1 \/ is_column scenario_A 1 2.
Proof.
  apply (edge_set_of_graph
           torch_geometric.is_undirected torch_geometric.to_undirected
           scenario_A (graph_lifting false)
           (set_contains_edge_attr false (graph_lifting false))).
  apply helper_plain_returns. reflexivity.
Defined.

Lemma node_set_of_graph_witness :
  let g := build_graph dangling_edge (plain_edges dangling_edge) in
  (forall n, nx.has_node g n = true <->
     0 <= n < Z.of_nat (length (x dangling_edge)) \/ is_endpoint dangling_edge n) /\
  (forall u v, nx.has_edge g u v = true ->
     nx.has_node g u = true /\ nx.has_node g v = true).
Proof.
  apply (node_set_of_graph
           torch_geometric.is_undirected torch_geometric.to_undirected
           dangling_edge (graph_lifting false)
           (set_contains_edge_attr false (graph_lifting false))).
  apply helper_plain_returns. reflexivity.
Defined.

Lemma graph_without_edges_witness :
  exists g,
    generate_graph isolated_nodes (graph_lifting true) =
      (Ok g, set_contains_edge_attr true (graph_lifting true)) /\
    (forall u v, nx.has_edge g u v = false) /\
    (forall n, nx.nodes g n =
       (fun row => dict_features_dim (ATensor1 row) 0) <$> row_at (x isolated_nodes) n).
Proof.
  apply (graph_without_edges
           torch_geometric.is_undirected torch_geometric.to_undirected
           isolated_nodes (graph_lifting true)).
  reflexivity.
Defined.


Lemma aligned_attributes_witness :
  exists g,
    generate_graph doubled_edges (graph_lifting true) =
      (Ok g, set_contains_edge_attr true (graph_lifting true)) /\
    forall u v,
      nx.edges g u v =
      match last_column doubled_edges u v with
      | Some k =>
          (fun row => dict_features_dim (ATensor1 row) 1)
            <$> [[5]; [7]; [5]; [7]] !! k
      | None => None
      end.
Proof.
  apply (aligned_attributes
           torch_geometric.is_undirected torch_geometric.to_undirected
           doubled_edges (graph_lifting true) [[5]; [7]; [5]; [7]]);
    reflexivity.
Defined.

Lemma topology_independent_of_attributes_witness :
  let g1 := build_graph scenario_B
              [(0, 1, Some (dict_features_dim (ATensor1 [5]) 1));
               (1, 0, Some (dict_features_dim (ATensor1 [5]) 1))] in
  let g2 := build_graph (with_edge_attr None scenario_B)
              (plain_edges (with_edge_attr None scenario_B)) in
  nx.nodes g1 2 = nx.nodes g2 2 /\
  nx.has_node g1 2 = nx.has_node g2 2 /\
  nx.has_edge g1 1 0 = nx.has_edge g2 1 0.
Proof.
  refine (topology_independent_of_attributes
           torch_geometric.is_undirected torch_geometric.to_undirected
           scenario_B None
           (graph_lifting true) (set_contains_edge_attr true (graph_lifting true))
           (graph_lifting false) (set_contains_edge_attr false (graph_lifting false))
           _ _ _ _ 2 1 0).
  - run_helper.
  - apply helper_plain_returns. reflexivity.
Defined.

Lemma plain_graph_of_column_set_witness :
  exists g g',
    generate_graph scenario_A (graph_lifting false) =
      (Ok g, set_contains_edge_attr false (graph_lifting false)) /\
    generate_graph scenario_A_shuffled (graph_lifting false) =
      (Ok g', set_contains_edge_attr false (graph_lifting false)) /\
    forall n u v, nx.nodes g n = nx.nodes g' n /\ nx.edges g u v = nx.edges g' u v.
Proof.
  apply (plain_graph_of_column_set
           torch_geometric.is_undirected torch_geometric.to_undirected
           scenario_A scenario_A_shuffled (graph_lifting false) (graph_lifting false));
    try reflexivity.
  intros u v. unfold is_column. simpl.
  rewrite !elem_of_cons, !elem_of_nil. naive_solver.
Defined.

Lemma base_initialiser_runs_first_witness :
  construct adds_x_1 returns_argument object_init HypergraphLifting_cls
    (Some (Some "SumLifting")) None (<["complex_dim" := 2]> ∅) = Raise TypeError.
Proof.
  apply (base_initialiser_runs_first adds_x_1 returns_argument object_init).
  reflexivity.
Defined.


Lemma lifted_fields_in_output_witness :
  let out : gmap string Z := <["x" := 1]> (<["x_1" := 2]> ∅) in
  let enriched : gmap string Z := <["x_1" := 2]> ∅ in
  (forall k v, enriched !! k = Some v -> out !! k = Some v) /\
  dom out =@{gset string} dom record_x ∪ dom enriched /\
  size out = (size record_x + size enriched)%nat.
Proof.
  apply (lifted_fields_in_output (fun _ : unit => pass_through) add_x_1
           record_x tt (<["x_1" := 2]> ∅) tt (<["x_1" := 2]> ∅) _ tt).
  - reflexivity.
  - reflexivity.
  - by vm_compute.
Defined.

Lemma second_application_raises_witness :
  forward (fun _ : unit => pass_through) add_x_1
    (<["x" := 1]> (<["x_1" := 2]> ∅)) tt = (Raise TypeError, tt).
Proof.
  apply (second_application_raises (fun _ : unit => pass_through) add_x_1
           record_x tt (<["x_1" := 2]> ∅) tt (<["x_1" := 2]> ∅)
           (<["x" := 1]> (<["x_1" := 2]> ∅))
           (<["x_1" := 2]> ∅) tt (<["x_1" := 2]> ∅) "x_1").
  - reflexivity.
  - reflexivity.
  - by vm_compute.
  - reflexivity.
  - reflexivity.
  - by eexists.
  - by eexists.
Defined.

Lemma empty_descriptor_returns_input_witness :
  forward (fun _ : unit => pass_through) adds_nothing record_x tt = (Ok record_x, tt).
Proof.
  apply (empty_descriptor_returns_input (fun _ : unit => pass_through) adds_nothing
           record_x tt ∅ tt); reflexivity.
Defined.

Lemma flag_tells_edge_features_witness :
  exists flag,
    contains_edge_attr (set_contains_edge_attr true (graph_lifting true)) = Some flag /\
    forall u v d,
      nx.edges (build_graph scenario_B
                  [(0, 1, Some (dict_features_dim (ATensor1 [5]) 1));
                   (1, 0, Some (dict_features_dim (ATensor1 [5]) 1))]) u v = Some d ->
      (is_Some (d !! "features") <-> flag = true).
Proof.
  apply (flag_tells_edge_features
           torch_geometric.is_undirected torch_geometric.to_undirected
           scenario_B (graph_lifting true)).
  run_helper.
Defined.

(** C3 as stated fails: the descriptor supplies [x] but not [y], and yet
    [y] is not in the output, because [forward] raises and returns no
    record. *)
Lemma field_preservation_counterexample :
  record_xy !! "y" = Some 3 /\
  relabel_x record_xy tt = (Ok (<["x" := 2]> ∅), tt) /\
  pass_through (<["x" := 2]> ∅) = Ok (<["x" := 2]> ∅) /\
  (<["x" := 2]> ∅ : gmap string Z) !! "y" = None /\
  forward (fun _ : unit => pass_through) relabel_x record_xy tt =
    (Raise TypeError, tt).
Proof. repeat split; by vm_compute. Qed.

Lemma field_preservation_or_TypeError_witness :
  if decide (dom record_x ##@{gset string}
             dom (<["x_1" := 2]> (∅ : gmap string Z)))
  then exists out,
         forward (fun _ : unit => pass_through) add_x_1 record_x tt = (Ok out, tt) /\
         forall k v, record_x !! k = Some v -> out !! k = Some v
  else forward (fun _ : unit => pass_through) add_x_1 record_x tt =
         (Raise TypeError, tt).
Proof.
  apply (field_preservation_or_TypeError (fun _ : unit => pass_through) add_x_1
           record_x tt (<["x_1" := 2]> ∅) tt (<["x_1" := 2]> ∅));
    reflexivity.
Defined.

(** On [record_x] and [add_x_1] the keys are disjoint, so the first case
    of the alternative is the one that applies. *)
Example record_x_add_x_1_disjoint :
  bool_decide (dom record_x ##@{gset string}
               dom (<["x_1" := 2]> (∅ : gmap string Z))) = true.
Proof. by vm_compute. Qed.

Lemma parallel_columns_collapse_witness :
  let g := build_graph doubled_edges
             [(0, 1, Some (dict_features_dim (ATensor1 [5]) 1));
              (0, 1, Some (dict_features_dim (ATensor1 [7]) 1));
              (1, 0, Some (dict_features_dim (ATensor1 [5]) 1));
              (1, 0, Some (dict_features_dim (ATensor1 [7]) 1))] in
  nx.edges g 0 1 = nx.edges g 1 0 /\
  (nx.has_edge g 0 1 = true <->
   is_column doubled_edges 0 1 \/ is_column doubled_edges 1 0) /\
  (forall k, last_column doubled_edges 0 1 = Some k ->
     if carries_edge_attr (graph_lifting true) doubled_edges
     then exists f,
            getitem (symmetrize torch_geometric.is_undirected
                       torch_geometric.to_undirected doubled_edges).2 k = Ok f /\
            nx.edges g 0 1 = Some (dict_features_dim f 1)
     else nx.edges g 0 1 = Some ∅).
Proof.
  refine (parallel_columns_collapse
            torch_geometric.is_undirected torch_geometric.to_undirected
            doubled_edges (graph_lifting true)
            (set_contains_edge_attr true (graph_lifting true)) _ 0 1 _).
  run_helper.
Defined.

(** In [doubled_edges] the last column that joins 0 and 1 is the fourth,
    whose attribute row is [7]. *)
Example doubled_edges_last_column :
  last_column doubled_edges 0 1 = Some 3%nat /\
  getitem (symmetrize torch_geometric.is_undirected
             torch_geometric.to_undirected doubled_edges).2 3 = Ok (ATensor1 [7]).
Proof. split; by vm_compute. Qed.

(** Three plain columns of which two coincide and none is reversed
    leave two edges, each with an empty dictionary. *)
Example shuffled_columns_collapse :
  exists g self',
    generate_graph scenario_A_shuffled (graph_lifting false) = (Ok g, self') /\
    nx.edges g 2 1 = Some ∅ /\ nx.edges g 1 2 = Some ∅ /\
    nx.edges g 0 1 = Some ∅ /\ nx.edges g 0 2 = None.
Proof.
  eexists _, _. split; [run_helper|]. repeat split; by vm_compute.
Qed.
